(** * call-script.mjs: runtime selection, docker command assembly and
      sentinel-delimited result extraction.

    Shallow embedding of [src/call-script.mjs].

    JavaScript strings are sequences of UTF-16 code units.  They are modelled
    by [string]; a character of the model stands for one code unit below 256,
    which covers the sentinels, the command-line tokens and the payloads
    discussed here.  Numbers that the source uses as string positions are
    modelled in [Z], so that the [-1] of [indexOf] and the negative-index
    rules of [slice] are written out. *)

From Stdlib Require Import String Ascii List ZArith Lia Bool.
Import ListNotations.

Local Open Scope list_scope.
Local Open Scope string_scope.

(** ** String primitives of the JavaScript runtime *)

Module Js.

(** The double-quote character, U+0022. *)
Definition dquote : string := String (ascii_of_nat 34) "".

(** The line feed character, U+000A. *)
Definition newline : string := String (ascii_of_nat 10) "".

(** [s.startsWith(needle)]. *)
Fixpoint startsWith (s needle : string) {struct needle} : bool :=
  match needle with
  | "" => true
  | String a needle' =>
      match s with
      | "" => false
      | String b s' => Ascii.eqb a b && startsWith s' needle'
      end
  end.

(** Position of the first occurrence of [needle] in [s], if any. *)
Fixpoint search (s needle : string) : option nat :=
  if startsWith s needle then Some 0
  else match s with
       | "" => None
       | String _ s' => option_map S (search s' needle)
       end.

(** [s.indexOf(needle)]: the first position, or [-1]. *)
Definition indexOf (s needle : string) : Z :=
  match search s needle with
  | Some i => Z.of_nat i
  | None => (-1)%Z
  end.

(** [s.includes(needle)]. *)
Definition includes (s needle : string) : bool :=
  match search s needle with
  | Some _ => true
  | None => false
  end.

(** [s.length] as a number. *)
Definition len (s : string) : Z := Z.of_nat (String.length s).

(** Relative index clamping shared by both arguments of [slice]. *)
Definition clamp (n k : Z) : Z :=
  if (k <? 0)%Z then Z.max (n + k) 0 else Z.min k n.

(** [s.slice(start, stop)]. *)
Definition slice (s : string) (start stop : Z) : string :=
  let from := clamp (len s) start in
  let to := clamp (len s) stop in
  substring (Z.to_nat from) (Z.to_nat (Z.max (to - from) 0)) s.

(** [s.slice(start)]: the second argument defaults to the length. *)
Definition sliceFrom (s : string) (start : Z) : string :=
  slice s start (len s).

(** White space and line terminators among the code units below 256:
    TAB, LF, VT, FF, CR, SP and NBSP. *)
Definition isWhiteSpace (c : ascii) : bool :=
  let n := nat_of_ascii c in
  ((9 <=? n)%nat && (n <=? 13)%nat) || (n =? 32)%nat || (n =? 160)%nat.

Fixpoint trimStart (s : string) : string :=
  match s with
  | "" => ""
  | String c s' => if isWhiteSpace c then trimStart s' else s
  end.

Fixpoint trimEnd (s : string) : string :=
  match s with
  | "" => ""
  | String c s' =>
      match trimEnd s' with
      | "" => if isWhiteSpace c then "" else String c ""
      | r => String c r
      end
  end.

(** [s.trim()]. *)
Definition trim (s : string) : string := trimEnd (trimStart s).

(** [l.join(sep)] on an array of strings. *)
Fixpoint join (sep : string) (l : list string) : string :=
  match l with
  | [] => ""
  | [x] => x
  | x :: rest => x ++ sep ++ join sep rest
  end.

(** [Boolean(s)] for a string: only the empty string is falsy. *)
Definition truthy (s : string) : bool :=
  match s with
  | "" => false
  | String _ _ => true
  end.

End Js.

(** Auxiliary string functions, used to state facts about the primitives. *)

Module StringAux.

(** [skip n s] drops the first [n] characters, [take n s] keeps them. *)
Fixpoint skip (n : nat) (s : string) : string :=
  match n, s with
  | O, _ => s
  | S _, "" => ""
  | S n', String _ s' => skip n' s'
  end.

Fixpoint take (n : nat) (s : string) : string :=
  match n, s with
  | O, _ => ""
  | S _, "" => ""
  | S n', String c s' => String c (take n' s')
  end.

(** Whether the character [c] occurs in [s]. *)
Fixpoint occurs (c : ascii) (s : string) : bool :=
  match s with
  | "" => false
  | String d s' => Ascii.eqb c d || occurs c s'
  end.

(** A needle whose first character occurs nowhere else in it cannot overlap
    a later copy of itself. *)
Definition headUnique (needle : string) : bool :=
  match needle with
  | "" => false
  | String c t => negb (occurs c t)
  end.

End StringAux.

(** ** The result extractor (the promise executor inside [callScript]) *)

Module Extractor.

Definition begin : string := "RESULT_BEGIN".
Definition end_ : string := "RESULT_END".

(** State of the promise [json]. *)
Inductive Promise : Type :=
  | Pending
  | Fulfilled (value : string)
  | Rejected (error : string).

(** The closure state of the executor: the variable [raw], the promise it
    settles and whether [onData] is still registered on the ['data'] event. *)
Record State : Type := mkState {
  raw : string;
  json : Promise;
  listening : bool
}.

(** State right after [process.stdout.on('data', onData)]. *)
Definition initial : State := mkState "" Pending true.

(** A promise is settled at most once; later calls are no-ops. *)
Definition resolve (v : string) (st : State) : State :=
  match json st with
  | Pending => mkState (raw st) (Fulfilled v) (listening st)
  | _ => st
  end.

Definition reject (e : string) (st : State) : State :=
  match json st with
  | Pending => mkState (raw st) (Rejected e) (listening st)
  | _ => st
  end.

(** [process.stdout.off('data', onData)]. *)
Definition off (st : State) : State :=
  mkState (raw st) (json st) false.

Definition addRaw (message : string) (st : State) : State :=
  mkState (raw st ++ message) (json st) (listening st).

(** The first [if] of [onData]: cut the message after the begin sentinel and
    append it to [raw] when it holds no end sentinel.  Returns the state and
    the possibly shortened [message]. *)
Definition afterBegin (st : State) (message : string) : State * string :=
  if Js.includes message begin then
    let message' :=
      Js.sliceFrom message (Js.indexOf message begin + Js.len begin) in
    (if negb (Js.includes message' end_) then addRaw message' st else st,
     message')
  else (st, message).

(** The second [if] of [onData]. *)
Definition atEnd (st : State) (message : string) : State :=
  if Js.includes message end_ then
    let message' := Js.slice message 0 (Js.indexOf message end_) in
    off (resolve (Js.trim (raw st ++ message')) st)
  else st.

(** [onData], with [data] already decoded by [data.toString('utf-8')]. *)
Definition onData (st : State) (data : string) : State :=
  let '(st1, message) := afterBegin st data in
  atEnd st1 message.

(** Events the executor has listeners for. *)
Inductive Event : Type :=
  | StdoutData (data : string)
  | ProcessError (error : string).

(** Delivery of one event to the registered listeners. *)
Definition dispatch (st : State) (ev : Event) : State :=
  match ev with
  | StdoutData data => if listening st then onData st data else st
  | ProcessError error => reject error st
  end.

Definition run (st : State) (evs : list Event) : State :=
  fold_left dispatch evs st.

(** The extractor fed a sequence of standard-output chunks. *)
Definition feed (chunks : list string) : State :=
  run initial (map StdoutData chunks).

(** The states reachable while no chunk has held the begin sentinel. *)
Definition beforeBegin (st : State) : Prop :=
  st = initial \/ (listening st = false /\ exists v, json st = Fulfilled v).

End Extractor.

(** State predicates used for the invariants of the extractor. *)

Module ExtractorStates.

Import Extractor.

(** Without process errors the listener is registered exactly as long as
    the promise is pending. *)
Definition inStep (st : State) : Prop :=
  (json st = Pending /\ listening st = true)
  \/ ((exists v, json st = Fulfilled v) /\ listening st = false).

(** Every value the promise is fulfilled with comes out of [trim]. *)
Definition trimmedValue (st : State) : Prop :=
  match json st with
  | Fulfilled v => exists x, v = Js.trim x
  | _ => True
  end.

End ExtractorStates.

(** ** JavaScript values held by the arrays that [filter(Boolean)] cleans *)

Module Value.

Inductive t : Type :=
  | Undefined
  | Bool (b : bool)
  | Str (s : string).

(** [Boolean(v)]. *)
Definition toBoolean (v : t) : bool :=
  match v with
  | Undefined => false
  | Bool b => b
  | Str s => Js.truthy s
  end.

(** [a && b]. *)
Definition and_ (a b : t) : t :=
  if toBoolean a then b else a.

(** The text [Array.prototype.join] uses for an element. *)
Definition joinText (v : t) : string :=
  match v with
  | Undefined => ""
  | Bool true => "true"
  | Bool false => "false"
  | Str s => s
  end.

(** An optional boolean property read from an object literal. *)
Definition ofOptionalBool (o : option bool) : t :=
  match o with
  | None => Undefined
  | Some b => Bool b
  end.

End Value.

(** ** The host: Node's [path] module and [process.cwd()]

    [path.extname], [path.dirname], [path.resolve] and [process.cwd()] belong
    to the platform, not to this repository; the embedding is parametric in
    them. *)

Class Host : Type := {
  extname : string -> string;
  dirname : string -> string;
  resolve : string -> string -> string;
  cwd : string
}.

(** What is relied upon about [path.extname]: the empty path has the empty
    extension, and an extension is empty or begins with a dot. *)
Class HostLaws (H : Host) : Prop := {
  extname_empty : extname "" = "";
  extname_shape :
    forall path, extname path = "" \/ Js.startsWith (extname path) "." = true
}.

(** ** Runtime table *)

(** [DockerImage]: 'lldb-debugger' | 'php-debugger' | 'python-debugger'. *)
Inductive DockerImage : Type :=
  | lldb_debugger
  | php_debugger
  | python_debugger.

(** The string a [DockerImage] value is. *)
Definition imageName (i : DockerImage) : string :=
  match i with
  | lldb_debugger => "lldb-debugger"
  | php_debugger => "php-debugger"
  | python_debugger => "python-debugger"
  end.

Record DockerRunConfig : Type := mkConfig { image : DockerImage }.

(** The object literal [dockerRunConfigs], its keys in insertion order. *)
Definition dockerRunConfigs : list (string * DockerRunConfig) :=
  [ (".c", mkConfig lldb_debugger);
    (".cpp", mkConfig lldb_debugger);
    (".php", mkConfig php_debugger);
    (".py", mkConfig python_debugger) ].

(** The result of [obj[key]] on an object literal: the value of an own
    property, a member inherited from [Object.prototype] (a function, or the
    prototype itself for [__proto__]; truthy in every case), or
    [undefined]. *)
Inductive Property (A : Type) : Type :=
  | Own (value : A)
  | Inherited
  | Missing.

Arguments Own {A} value.
Arguments Inherited {A}.
Arguments Missing {A}.

(** The property names of [Object.prototype]. *)
Definition objectPrototypeKeys : list string :=
  [ "constructor"; "__defineGetter__"; "__defineSetter__"; "hasOwnProperty";
    "__lookupGetter__"; "__lookupSetter__"; "isPrototypeOf";
    "propertyIsEnumerable"; "toString"; "valueOf"; "__proto__";
    "toLocaleString" ].

(** The own entry of an object literal for a key. *)
Fixpoint ownProperty {A : Type} (obj : list (string * A)) (key : string)
  : option A :=
  match obj with
  | [] => None
  | (k, v) :: rest => if String.eqb k key then Some v else ownProperty rest key
  end.

(** [obj[key]]. *)
Definition getProperty {A : Type} (obj : list (string * A)) (key : string)
  : Property A :=
  match ownProperty obj key with
  | Some v => Own v
  | None =>
      if existsb (String.eqb key) objectPrototypeKeys then Inherited
      else Missing
  end.

(** [Object.keys(obj)]. *)
Definition keys {A : Type} (obj : list (string * A)) : list string :=
  map fst obj.

(** ** Mounts *)

Inductive MountType : Type := bind.

Definition mountTypeName (t : MountType) : string :=
  match t with bind => "bind" end.

Record DockerMount : Type := mkMount {
  type : option MountType;
  source : string;
  target : string;
  readOnly : option bool
}.

(** [{ source, target }]: the object literals of the source set neither
    [type] nor [readOnly]. *)
Definition mount (src tgt : string) : DockerMount :=
  mkMount None src tgt None.

(** [toDockerMountArgs]: the parameter default gives [type] the value
    ['bind'] when the property is absent. *)
Definition toDockerMountArgs (m : DockerMount) : list string :=
  let type_ := match type m with Some t => t | None => bind end in
  let arg :=
    Js.join ","
      (map Value.joinText
         (filter Value.toBoolean
            [ Value.Str ("type=" ++ mountTypeName type_);
              Value.Str ("source=" ++ source m);
              Value.Str ("target=" ++ target m);
              Value.and_ (Value.ofOptionalBool (readOnly m))
                         (Value.Str "readonly") ])) in
  ["--mount"; arg].

Record Paths : Type := mkPaths {
  dockerRoot : string;
  selfRoot : string;
  sources : string -> string;
  output : string -> string;
  nodeModules : string -> string;
  packageJson : string -> string;
  packageLock : string -> string;
  vscodeLldb : string -> string;
  vscodePhpDebug : string -> string
}.

(** What [callScript] does before it awaits the promise. *)
Inductive Effect : Type :=
  | ProcessOn (event : string)
  | StdoutOn (event : string)
  | ConsoleInfo (args : list string)
  | SpawnSync (command : string) (args : list string) (stdio : string).

(** The exceptions the synchronous part can raise. *)
Inductive Exception : Type :=
  | Error (message : string)
  | TypeError (message : string).

(** How the synchronous part of the [async] body ends: with a [throw], which
    rejects the returned promise at once, or at [await json]. *)
Inductive Completion : Type :=
  | Thrown (e : Exception)
  | AwaitJson.

Record LaunchPlan : Type := mkPlan {
  command : string;
  args : list string
}.

(** The [--mount] entry of a mount that sets neither [type] nor [readOnly],
    written out. *)
Definition bindFlag (src tgt : string) : list string :=
  [ "--mount"; "type=bind,source=" ++ src ++ ",target=" ++ tgt ].

Section CallScript.

Context {H : Host}.

Definition paths : Paths := {|
  dockerRoot := "/usr/project";
  selfRoot := cwd;
  sources := fun root => resolve root "./sources";
  output := fun root => resolve root "./out";
  nodeModules := fun root => resolve root "./node_modules";
  packageJson := fun root => resolve root "./package.json";
  packageLock := fun root => resolve root "./package-lock.json";
  vscodeLldb := fun root => resolve root "./vscode-lldb";
  vscodePhpDebug := fun root => resolve root "./vscode-php-debug"
|}.

(** The object literal [mountsPerImage]; a [Record<DockerImage, _>] has an
    entry for each image. *)
Definition mountsPerImage (i : DockerImage) : list DockerMount :=
  match i with
  | lldb_debugger =>
      [ mount (vscodeLldb paths (selfRoot paths))
              (vscodeLldb paths (dockerRoot paths)) ]
  | php_debugger =>
      [ mount (vscodePhpDebug paths (selfRoot paths))
              (vscodePhpDebug paths (dockerRoot paths)) ]
  | python_debugger => []
  end.

(** The mount of the project directory, the last one of [dockerRunCommand]. *)
Definition projectMount (mainFilePath : string) : DockerMount :=
  let projectPath := dirname mainFilePath in
  mount (resolve (selfRoot paths) projectPath)
        (resolve (dockerRoot paths) projectPath).

Definition dockerRunCommand (docker : DockerRunConfig)
    (mainFilePath logLevel : string) : LaunchPlan :=
  let command := "docker" in
  let args :=
    filter Js.truthy
      (List.concat
         [ [ "run"; "-it"; "--rm"; "--env"; "LOG_LEVEL=" ++ logLevel ];
           flat_map toDockerMountArgs (mountsPerImage (image docker));
           toDockerMountArgs (mount (output paths (selfRoot paths))
                                    (output paths (dockerRoot paths)));
           toDockerMountArgs (mount (nodeModules paths (selfRoot paths))
                                    (nodeModules paths (dockerRoot paths)));
           toDockerMountArgs (projectMount mainFilePath);
           [ imageName (image docker); mainFilePath ] ]) in
  mkPlan command args.

(** The mounts [dockerRunCommand] serializes, in the order of its array
    literal: those of the image, the output directory, the dependency
    directory and the project directory. *)
Definition commandMounts (docker : DockerRunConfig) (mainFilePath : string)
  : list DockerMount :=
  (mountsPerImage (image docker)
   ++ [ mount (output paths (selfRoot paths)) (output paths (dockerRoot paths));
        mount (nodeModules paths (selfRoot paths))
              (nodeModules paths (dockerRoot paths));
        projectMount mainFilePath ])%list.

(** The message of the error thrown for an extension without entry. *)
Definition unknownExtension (fileExtension : string) : string :=
  "Unknown extension " ++ Js.dquote ++ fileExtension ++ Js.dquote
  ++ ". Accepted: " ++ Js.dquote
  ++ Js.join (Js.dquote ++ ", " ++ Js.dquote) (keys dockerRunConfigs)
  ++ Js.dquote.

(** The message of the error raised by [mountsPerImage[docker.image].flatMap]
    in [dockerRunCommand] when [docker] is an inherited member: it has no
    [image], and [mountsPerImage[undefined]] is [undefined]. *)
Definition undefinedFlatMap : string :=
  "Cannot read properties of undefined (reading 'flatMap')".

(** The text [console.info] is given before the process is spawned. *)
Definition commandInfo (plan : LaunchPlan) : list string :=
  [ "command" ++ Js.newline;
    Js.join (" \" ++ Js.newline ++ "  ") (command plan :: args plan) ].

(** [callScript] up to [await json]: the effects performed, in order, and
    how the synchronous part ends.  [logLevel] is [None] when the argument is
    omitted, in which case the default ['off'] applies.  [dockerRunCommand]
    is called before the promise is created, so an exception of it precedes
    every effect. *)
Definition callScript (mainFilePath : string) (logLevel : option string)
  : list Effect * Completion :=
  let logLevel := match logLevel with Some l => l | None => "off" end in
  let fileExtension := extname mainFilePath in
  match getProperty dockerRunConfigs fileExtension with
  | Missing => ([], Thrown (Error (unknownExtension fileExtension)))
  | Inherited => ([], Thrown (TypeError undefinedFlatMap))
  | Own docker =>
      let plan := dockerRunCommand docker mainFilePath logLevel in
      ([ ProcessOn "error";
         StdoutOn "data";
         ConsoleInfo (commandInfo plan);
         SpawnSync (command plan) (args plan) "inherit" ],
       AwaitJson)
  end.

End CallScript.

(** ** Node's POSIX [path] functions

    A transcription of the POSIX variants of [path.extname], [path.dirname]
    and [path.resolve] (with its helper [normalizeString]) of Node.js, loop by
    loop.  It instantiates [Host], so that the assembled command can be
    evaluated on concrete paths. *)

Module Posix.

Local Open Scope Z_scope.

Definition slash : ascii := ascii_of_nat 47.
Definition dot : ascii := ascii_of_nat 46.

(** The characters of a string with their positions. *)
Fixpoint indexedFrom (i : Z) (s : string) : list (Z * ascii) :=
  match s with
  | EmptyString => []
  | String c s' => (i, c) :: indexedFrom (i + 1) s'
  end.

Definition indexed (s : string) : list (Z * ascii) := indexedFrom 0 s.

(** [s.charCodeAt(0) === CHAR_FORWARD_SLASH]. *)
Definition startsWithSlash (s : string) : bool :=
  match s with
  | String c _ => Ascii.eqb c slash
  | EmptyString => false
  end.

(** *** extname *)

Record ExtScan : Type := mkExtScan {
  startDot : Z;
  startPart : Z;
  extEnd : Z;
  extMatchedSlash : bool;
  preDotState : Z;
  extBroke : bool
}.

(** One iteration of the loop of [extname], at position [i]. *)
Definition extStep (st : ExtScan) (ic : Z * ascii) : ExtScan :=
  let '(i, code) := ic in
  if extBroke st then st
  else if Ascii.eqb code slash then
    if negb (extMatchedSlash st) then
      mkExtScan (startDot st) (i + 1) (extEnd st) (extMatchedSlash st)
                (preDotState st) true
    else st
  else
    let st1 :=
      if extEnd st =? -1 then
        mkExtScan (startDot st) (startPart st) (i + 1) false
                  (preDotState st) false
      else st in
    if Ascii.eqb code dot then
      if startDot st1 =? -1 then
        mkExtScan i (startPart st1) (extEnd st1) (extMatchedSlash st1)
                  (preDotState st1) false
      else if negb (preDotState st1 =? 1) then
        mkExtScan (startDot st1) (startPart st1) (extEnd st1)
                  (extMatchedSlash st1) 1 false
      else st1
    else if negb (startDot st1 =? -1) then
      mkExtScan (startDot st1) (startPart st1) (extEnd st1)
                (extMatchedSlash st1) (-1) false
    else st1.

Definition extScan (path : string) : ExtScan :=
  fold_left extStep (rev (indexed path)) (mkExtScan (-1) 0 (-1) true 0 false).

Definition extname (path : string) : string :=
  let st := extScan path in
  if (startDot st =? -1) || (extEnd st =? -1) || (preDotState st =? 0)
     || ((preDotState st =? 1) && (startDot st =? extEnd st - 1)
         && (startDot st =? startPart st + 1))
  then ""%string
  else Js.slice path (startDot st) (extEnd st).

(** *** dirname *)

Record DirScan : Type := mkDirScan {
  dirEnd : Z;
  dirMatchedSlash : bool;
  dirBroke : bool
}.

Definition dirStep (st : DirScan) (ic : Z * ascii) : DirScan :=
  let '(i, code) := ic in
  if dirBroke st then st
  else if Ascii.eqb code slash then
    if negb (dirMatchedSlash st) then mkDirScan i (dirMatchedSlash st) true
    else st
  else mkDirScan (dirEnd st) false false.

(** The loop of [dirname] runs from the last position down to position 1. *)
Definition dirScan (path : string) : DirScan :=
  fold_left dirStep (rev (tl (indexed path))) (mkDirScan (-1) true false).

Definition dirname (path : string) : string :=
  if Js.len path =? 0 then "."%string
  else
    let hasRoot := startsWithSlash path in
    let st := dirScan path in
    if dirEnd st =? -1 then (if hasRoot then "/" else ".")%string
    else if hasRoot && (dirEnd st =? 1) then "//"%string
    else Js.slice path 0 (dirEnd st).

(** *** normalizeString *)

(** [s.lastIndexOf("/")], or [-1]. *)
Definition lastSlashIndex (s : string) : Z :=
  fold_left (fun acc ic => if Ascii.eqb (snd ic) slash then fst ic else acc)
            (indexed s) (-1).

(** [s.charCodeAt(k) === CHAR_DOT]. *)
Definition dotAt (s : string) (k : Z) : bool :=
  if k <? 0 then false
  else match String.get (Z.to_nat k) s with
       | Some c => Ascii.eqb c dot
       | None => false
       end.

Record NormScan : Type := mkNormScan {
  res : string;
  lastSegmentLength : Z;
  lastSlash : Z;
  dots : Z;
  normCode : ascii;
  normBroke : bool
}.

(** The body of the loop once [code] is known. *)
Definition normBody (path : string) (allowAboveRoot : bool) (st : NormScan)
    (i : Z) (code : ascii) : NormScan :=
  if Ascii.eqb code slash then
    if (lastSlash st =? i - 1) || (dots st =? 1) then
      mkNormScan (res st) (lastSegmentLength st) i 0 code false
    else if dots st =? 2 then
      let r := res st in
      let above :=
        mkNormScan
          (if allowAboveRoot
           then (if 0 <? Js.len r then (r ++ "/..")%string else ".."%string)
           else r)
          (if allowAboveRoot then 2 else lastSegmentLength st)
          i 0 code false in
      if (Js.len r <? 2) || negb (lastSegmentLength st =? 2)
         || negb (dotAt r (Js.len r - 1)) || negb (dotAt r (Js.len r - 2))
      then
        if 2 <? Js.len r then
          let k := lastSlashIndex r in
          if k =? -1 then mkNormScan "" 0 i 0 code false
          else
            let r' := Js.slice r 0 k in
            mkNormScan r' (Js.len r' - 1 - lastSlashIndex r') i 0 code false
        else if negb (Js.len r =? 0) then mkNormScan "" 0 i 0 code false
        else above
      else above
    else
      let segment := Js.slice path (lastSlash st + 1) i in
      mkNormScan
        (if 0 <? Js.len (res st) then (res st ++ "/" ++ segment)%string
         else segment)
        (i - lastSlash st - 1) i 0 code false
  else if Ascii.eqb code dot && negb (dots st =? -1) then
    mkNormScan (res st) (lastSegmentLength st) (lastSlash st) (dots st + 1)
               code false
  else
    mkNormScan (res st) (lastSegmentLength st) (lastSlash st) (-1) code false.

(** One iteration at position [i]; [c] is [None] at [i = path.length]. *)
Definition normStep (path : string) (allowAboveRoot : bool) (st : NormScan)
    (ic : Z * option ascii) : NormScan :=
  let '(i, c) := ic in
  if normBroke st then st
  else match c with
       | Some code => normBody path allowAboveRoot st i code
       | None =>
           if Ascii.eqb (normCode st) slash then
             mkNormScan (res st) (lastSegmentLength st) (lastSlash st)
                        (dots st) (normCode st) true
           else normBody path allowAboveRoot st i slash
       end.

Definition normalizeString (path : string) (allowAboveRoot : bool) : string :=
  let positions :=
    (map (fun ic => (fst ic, Some (snd ic))) (indexed path)
     ++ [(Js.len path, None)])%list in
  res (fold_left (normStep path allowAboveRoot) positions
         (mkNormScan "" 0 (-1) 0 zero false)).

(** *** resolve *)

(** The loop of [resolve] over the arguments from the last to the first and
    then the working directory; empty entries are skipped, and the loop stops
    once an absolute path has been prepended. *)
Fixpoint resolveLoop (reversed : list string) (resolvedPath : string)
  : string * bool :=
  match reversed with
  | [] => (resolvedPath, false)
  | path :: rest =>
      if Js.len path =? 0 then resolveLoop rest resolvedPath
      else
        let resolvedPath' := (path ++ "/" ++ resolvedPath)%string in
        if startsWithSlash path then (resolvedPath', true)
        else resolveLoop rest resolvedPath'
  end.

Definition resolveAll (cwd : string) (paths : list string) : string :=
  let '(resolvedPath, resolvedAbsolute) :=
    resolveLoop (rev paths ++ [cwd])%list "" in
  let normalized := normalizeString resolvedPath (negb resolvedAbsolute) in
  if resolvedAbsolute then ("/" ++ normalized)%string
  else if 0 <? Js.len normalized then normalized else "."%string.

(** [path.resolve(a, b)]. *)
Definition resolve (cwd a b : string) : string := resolveAll cwd [a; b].

End Posix.

(** The POSIX host with working directory [dir]. *)
Definition posixHost (dir : string) : Host := {|
  extname := Posix.extname;
  dirname := Posix.dirname;
  resolve := Posix.resolve dir;
  cwd := dir
|}.

(** * Properties *)

(** ** Strings *)

Module JsFacts.

Import Js StringAux.

Lemma length_app (a b : string) :
  String.length (a ++ b) = String.length a + String.length b.
Proof. induction a as [|c a IH]; simpl; [reflexivity | now rewrite IH]. Qed.

Lemma app_assoc (a b c : string) : (a ++ b) ++ c = a ++ b ++ c.
Proof. induction a as [|x a IH]; simpl; [reflexivity | now rewrite IH]. Qed.

Lemma skip_app (a r : string) : skip (String.length a) (a ++ r) = r.
Proof. induction a as [|c a IH]; simpl; auto. Qed.

Lemma take_app (a r : string) : take (String.length a) (a ++ r) = a.
Proof. induction a as [|c a IH]; simpl; [reflexivity | now rewrite IH]. Qed.

Lemma substring_skip (s : string) (n : nat) :
  substring n (String.length s - n) s = skip n s.
Proof.
  revert n; induction s as [|c s IH]; intros [|n]; simpl; try reflexivity.
  - f_equal. specialize (IH 0). simpl in IH. now rewrite Nat.sub_0_r in IH.
  - apply IH.
Qed.

Lemma skip_all (s : string) (n : nat) : String.length s <= n -> skip n s = "".
Proof.
  revert n; induction s as [|c s IH]; intros [|n] Hn; simpl in *;
    try reflexivity; try lia.
  apply IH; lia.
Qed.

Lemma substring_take (s : string) (n : nat) : substring 0 n s = take n s.
Proof.
  revert n; induction s as [|c s IH]; intros [|n]; simpl; try reflexivity.
  now rewrite IH.
Qed.

Lemma take_all (s : string) (n : nat) : String.length s <= n -> take n s = s.
Proof.
  revert n; induction s as [|c s IH]; intros [|n] Hn; simpl in *;
    try reflexivity; try lia.
  f_equal; apply IH; lia.
Qed.

(** [s.slice(k)] with [k] not negative drops [k] characters. *)
Lemma sliceFrom_skip (s : string) (k : Z) :
  (0 <= k)%Z -> sliceFrom s k = skip (Z.to_nat k) s.
Proof.
  intros Hk. unfold sliceFrom, slice, clamp, len.
  destruct (Z.ltb_spec k 0) as [?|_]; [lia|].
  destruct (Z.ltb_spec (Z.of_nat (String.length s)) 0) as [?|_]; [lia|].
  rewrite Z.min_id.
  destruct (Z.le_gt_cases k (Z.of_nat (String.length s))) as [Hle|Hgt].
  - rewrite Z.min_l by lia.
    replace (Z.to_nat (Z.max (Z.of_nat (String.length s) - k) 0))
      with (String.length s - Z.to_nat k) by lia.
    apply substring_skip.
  - rewrite Z.min_r by lia.
    rewrite Z.sub_diag, Nat2Z.id. simpl Z.to_nat.
    rewrite (skip_all s (Z.to_nat k)) by lia.
    replace 0 with (String.length s - String.length s) by lia.
    rewrite substring_skip. apply skip_all; lia.
Qed.

(** [s.slice(0, k)] with [k] not negative keeps [k] characters. *)
Lemma slice0_take (s : string) (k : Z) :
  (0 <= k)%Z -> slice s 0 k = take (Z.to_nat k) s.
Proof.
  intros Hk. unfold slice, clamp, len.
  destruct (Z.ltb_spec k 0) as [?|_]; [lia|].
  change (0 <? 0)%Z with false. cbv iota.
  rewrite Z.min_l by lia. rewrite Z.sub_0_r. simpl Z.to_nat at 1.
  rewrite substring_take.
  destruct (Z.le_gt_cases k (Z.of_nat (String.length s))) as [Hle|Hgt].
  - rewrite Z.min_l by lia. now rewrite Z.max_l by lia.
  - rewrite Z.min_r by lia. rewrite Z.max_l by lia. rewrite Nat2Z.id.
    rewrite take_all by lia. rewrite take_all by lia. reflexivity.
Qed.

Lemma search_cons (c : ascii) (s needle : string) :
  search (String c s) needle =
  if startsWith (String c s) needle then Some 0
  else option_map S (search s needle).
Proof. reflexivity. Qed.

Lemma includes_search (s needle : string) :
  includes s needle = false <-> search s needle = None.
Proof. unfold includes. destruct (search s needle); split; congruence. Qed.

Lemma includes_indexOf (s needle : string) (i : nat) :
  search s needle = Some i ->
  includes s needle = true /\ indexOf s needle = Z.of_nat i.
Proof. unfold includes, indexOf. now intros ->. Qed.

(** A suffix includes no more than the whole string. *)
Lemma includes_skip (s needle : string) (n : nat) :
  includes (skip n s) needle = true -> includes s needle = true.
Proof.
  revert s; induction n as [|n IH]; intros s; [trivial|].
  destruct s as [|c s]; [trivial|]. simpl skip. intros Hs.
  apply IH in Hs. unfold includes in *. rewrite search_cons.
  destruct (startsWith (String c s) needle); [reflexivity|].
  destruct (search s needle); [reflexivity | discriminate].
Qed.

Lemma includes_app_r (p s needle : string) :
  includes s needle = true -> includes (p ++ s) needle = true.
Proof.
  intros Hs. rewrite <- (skip_app p s) in Hs. now apply includes_skip in Hs.
Qed.

Lemma startsWith_app (n r : string) : startsWith (n ++ r) n = true.
Proof.
  induction n as [|c n IH]; simpl; [reflexivity|].
  now rewrite Ascii.eqb_refl, IH.
Qed.

Lemma occurs_app (c : ascii) (a b : string) :
  occurs c (a ++ String c b) = true.
Proof.
  induction a as [|d a IH]; simpl.
  - now rewrite Ascii.eqb_refl.
  - rewrite IH. apply orb_true_r.
Qed.

(** A match at the start of [a ++ r] lies within [a] or runs over its end. *)
Lemma startsWith_app_inv (a r n : string) :
  startsWith (a ++ r) n = true ->
  startsWith a n = true \/
  exists n2, n = a ++ n2 /\ n2 <> "" /\ startsWith r n2 = true.
Proof.
  revert n; induction a as [|x a IH]; intros n Hn.
  - destruct n as [|y n]; [left; reflexivity|].
    right. exists (String y n). repeat split; [discriminate | exact Hn].
  - destruct n as [|y n]; [left; reflexivity|].
    simpl in Hn. apply andb_true_iff in Hn as [Hyx Hn].
    apply Ascii.eqb_eq in Hyx; subst y.
    destruct (IH n Hn) as [Hl | (n2 & -> & Hne & Hr)].
    + left. simpl. now rewrite Ascii.eqb_refl.
    + right. exists n2. repeat split; assumption.
Qed.

(** The first occurrence of a non-overlapping needle after a prefix free of
    it is right behind the prefix. *)
Lemma search_app (needle a rest : string) :
  headUnique needle = true ->
  includes a needle = false ->
  search (a ++ needle ++ rest) needle = Some (String.length a).
Proof.
  intros Hu. induction a as [|x a IH]; intros Ha.
  - destruct needle as [|c t]; [discriminate|].
    change ("" ++ String c t ++ rest) with (String c (t ++ rest)).
    rewrite search_cons.
    change (String c (t ++ rest)) with (String c t ++ rest).
    now rewrite startsWith_app.
  - apply includes_search in Ha. rewrite search_cons in Ha.
    destruct (startsWith (String x a) needle) eqn:Hs; [discriminate|].
    destruct (search a needle) eqn:Hsa; [discriminate|].
    assert (Hno : startsWith (String x a ++ needle ++ rest) needle = false).
    { destruct (startsWith (String x a ++ needle ++ rest) needle) eqn:Hc;
        [|reflexivity].
      apply startsWith_app_inv in Hc as [Hc | (n2 & Hn & Hne & Hr)];
        [congruence|].
      destruct needle as [|c t]; [discriminate|].
      destruct n2 as [|c2 n2]; [congruence|].
      simpl in Hr. apply andb_true_iff in Hr as [Hc2 _].
      apply Ascii.eqb_eq in Hc2; subst c2.
      simpl in Hn. injection Hn as _ Ht. subst t.
      simpl in Hu. now rewrite occurs_app in Hu. }
    change (String x a ++ needle ++ rest)
      with (String x (a ++ needle ++ rest)) in *.
    rewrite search_cons, Hno.
    rewrite IH; [reflexivity|]. now apply includes_search.
Qed.

End JsFacts.

(** ** The result extractor *)

Module ExtractorFacts.

Import Js StringAux JsFacts Extractor.

Lemma indexOf_lower (s needle : string) : (-1 <= indexOf s needle)%Z.
Proof. unfold indexOf. destruct (search s needle); lia. Qed.

Lemma run_app (st : State) (e1 e2 : list Event) :
  run st (e1 ++ e2)%list = run (run st e1) e2.
Proof. apply fold_left_app. Qed.

Lemma feed_app (c1 c2 : list string) :
  feed (c1 ++ c2)%list = run (feed c1) (map StdoutData c2).
Proof. unfold feed. now rewrite map_app, run_app. Qed.

Lemma run_initial_data (c : string) (evs : list Event) :
  run initial (StdoutData c :: evs) = run (onData initial c) evs.
Proof. reflexivity. Qed.

(** A chunk holding neither sentinel goes through both tests of [onData]
    untouched, whatever has been accumulated. *)
Lemma onData_neither (st : State) (c : string) :
  includes c begin = false -> includes c end_ = false -> onData st c = st.
Proof.
  intros Hb He. unfold onData, afterBegin, atEnd. now rewrite Hb, He.
Qed.

Lemma dispatch_neither (st : State) (c : string) :
  includes c begin = false -> includes c end_ = false ->
  dispatch st (StdoutData c) = st.
Proof.
  intros Hb He. simpl. destruct (listening st); [|reflexivity].
  now apply onData_neither.
Qed.

(** Once [onData] is unregistered, chunks no longer reach the state. *)
Lemma run_unregistered (st : State) (chunks : list string) :
  listening st = false -> run st (map StdoutData chunks) = st.
Proof.
  intros Hl. induction chunks as [|c chunks IH]; [reflexivity|].
  simpl. rewrite Hl. exact IH.
Qed.

Lemma beforeBegin_step (st : State) (c : string) :
  includes c begin = false -> beforeBegin st ->
  beforeBegin (dispatch st (StdoutData c)).
Proof.
  intros Hb [-> | [Hl Hv]].
  - simpl. unfold onData, afterBegin, atEnd. rewrite Hb.
    destruct (includes c end_); [|now left].
    right. split; [reflexivity|]. simpl. eauto.
  - simpl. rewrite Hl. right. now split.
Qed.

Lemma beforeBegin_feed (pre : list string) :
  Forall (fun c => includes c begin = false) pre -> beforeBegin (feed pre).
Proof.
  intros Hpre. unfold feed, run.
  assert (Hgen : forall st, beforeBegin st ->
            beforeBegin (fold_left dispatch (map StdoutData pre) st)).
  { induction Hpre as [|c pre Hc _ IH]; intros st Hst; [exact Hst|].
    simpl map. simpl fold_left. apply IH. now apply beforeBegin_step. }
  apply Hgen. now left.
Qed.

Lemma pending_beforeBegin (st : State) :
  beforeBegin st -> json st = Pending -> st = initial.
Proof. intros [-> | [_ [v Hv]]] Hp; [reflexivity | congruence]. Qed.

Lemma headUnique_begin : headUnique begin = true.
Proof. reflexivity. Qed.

Lemma headUnique_end : headUnique end_ = true.
Proof. reflexivity. Qed.

(** A chunk that holds the begin sentinel and, after it, the end sentinel
    settles the promise with the text between the two, put behind [raw]. *)
Lemma onData_both (st : State) (a b d : string) :
  json st = Pending ->
  includes a begin = false -> includes b end_ = false ->
  onData st (a ++ begin ++ b ++ end_ ++ d)
  = mkState (raw st) (Fulfilled (trim (raw st ++ b))) false.
Proof.
  intros Hp Ha Hb.
  pose proof (search_app begin a (b ++ end_ ++ d) headUnique_begin Ha) as Hsb.
  pose proof (search_app end_ b d headUnique_end Hb) as Hse.
  apply includes_indexOf in Hsb as [Hib Hxb].
  apply includes_indexOf in Hse as [Hie Hxe].
  unfold onData, afterBegin. rewrite Hib, Hxb.
  rewrite sliceFrom_skip by (unfold len; lia).
  replace (Z.to_nat (Z.of_nat (String.length a) + len begin))
    with (String.length a + String.length begin)
    by (unfold len; lia).
  assert (Hskip : skip (String.length a + String.length begin)
                    (a ++ begin ++ b ++ end_ ++ d) = b ++ end_ ++ d).
  { rewrite <- length_app, <- app_assoc. apply skip_app. }
  rewrite Hskip. rewrite Hie. simpl negb. cbv iota.
  unfold atEnd. rewrite Hie, Hxe.
  rewrite slice0_take by lia. rewrite Nat2Z.id, take_app.
  unfold off, resolve. rewrite Hp. reflexivity.
Qed.

(** A chunk without end sentinel never settles the promise. *)
Lemma onData_no_end (st : State) (c : string) :
  includes c end_ = false ->
  json (onData st c) = json st /\ listening (onData st c) = listening st.
Proof.
  intros Hc. unfold onData, afterBegin.
  destruct (includes c begin) eqn:Hb.
  - set (m := sliceFrom c (indexOf c begin + len begin)).
    assert (Hm : includes m end_ = false).
    { destruct (includes m end_) eqn:Hm; [|reflexivity].
      unfold m in Hm. rewrite sliceFrom_skip in Hm
        by (pose proof (indexOf_lower c begin); unfold len; simpl; lia).
      apply includes_skip in Hm. congruence. }
    rewrite Hm. simpl negb. cbv iota. unfold atEnd. rewrite Hm.
    split; reflexivity.
  - unfold atEnd. rewrite Hc. split; reflexivity.
Qed.

End ExtractorFacts.

(** *** The claims on the extractor *)

Section ExtractorClaims.

Import Js Extractor.

(** C1 (the source falls short of it).  The chunks between the one holding
    [RESULT_BEGIN] and the one holding [RESULT_END] are not appended to
    [raw]: the sequence ["RESULT_BEGIN"; "partial-data-"; "more-data";
    "RESULT_END"] settles the promise with the empty string, not with
    "partial-data-more-data", and [raw] is still empty at the end. *)
Theorem C1_middle_chunks_are_dropped :
  feed ["RESULT_BEGIN"; "partial-data-"; "more-data"; "RESULT_END"]
  = mkState "" (Fulfilled "") false
  /\ run (feed ["RESULT_BEGIN"]) [StdoutData "partial-data-"]
     = feed ["RESULT_BEGIN"].
Proof. split; reflexivity. Qed.

(** C2, as stated, fails: the chunk "helloRESULT_END" holds no begin
    sentinel and arrives first, yet it settles the promise with "hello" and
    unregisters the listener. *)
Lemma C2_counterexample :
  includes "helloRESULT_END" begin = false
  /\ feed ([] ++ ["helloRESULT_END"])%list <> feed []
  /\ json (feed ["helloRESULT_END"]) = Fulfilled "hello".
Proof. split; [reflexivity | split; [discriminate | reflexivity]]. Qed.

(** C2, amended.  A chunk that arrives before any chunk held the begin
    sentinel and that holds neither the begin nor the end sentinel leaves the
    extractor state unchanged: nothing is added to [raw] and the promise is
    not settled by it. *)
Theorem C2_chunk_without_sentinels_is_ignored
    (pre : list string) (c : string) :
  Forall (fun p => includes p begin = false) pre ->
  includes c begin = false ->
  includes c end_ = false ->
  feed (pre ++ [c])%list = feed pre.
Proof.
  intros _ Hb He. rewrite ExtractorFacts.feed_app. simpl.
  now apply ExtractorFacts.dispatch_neither.
Qed.

Lemma C2_witness :
  feed (["noise "; "more noise"] ++ ["(lldb) "])%list
  = feed ["noise "; "more noise"].
Proof.
  apply (C2_chunk_without_sentinels_is_ignored
           ["noise "; "more noise"] "(lldb) ").
  - repeat constructor.
  - reflexivity.
  - reflexivity.
Defined.

(** C5, as stated, fails in three ways.  A first chunk "helloRESULT_END"
    settles the promise with "hello", so a later chunk holding both sentinels
    is not even looked at.  After a chunk "RESULT_BEGIN old " the buffer holds
    " old ", and a chunk holding both sentinels then gives "old  new", not the
    text between its own sentinels.  And a chunk whose only end sentinel
    stands in front of its begin sentinel does not settle the promise. *)
Lemma C5_counterexample :
  feed ["helloRESULT_END"; "RESULT_BEGIN{a}RESULT_END"]
  = mkState "" (Fulfilled "hello") false
  /\ feed ["RESULT_BEGIN old "; "x RESULT_BEGIN new RESULT_END tail"]
     = mkState " old " (Fulfilled "old  new") false
  /\ feed ["RESULT_END x RESULT_BEGIN y"] = mkState " y" Pending true.
Proof. split; [reflexivity | split; reflexivity]. Qed.

(** C5, amended.  While no earlier chunk held the begin sentinel and the
    promise is still pending, a chunk [a ++ RESULT_BEGIN ++ b ++ RESULT_END ++ d] (the
    begin sentinel first at the end of [a], the end sentinel first at the end
    of [b]) settles the promise at once with [b] trimmed; [raw] is empty, so
    nothing of the earlier chunks is in the payload, and the listener is
    unregistered, so later chunks change nothing.  In particular the chunks
    "noise " and "RESULT_BEGIN{"a":1}RESULT_END trailing" give {"a":1}. *)
Theorem C5_both_sentinels_in_one_chunk :
  (forall (pre : list string) (a b d : string) (post : list string),
      Forall (fun p => includes p begin = false) pre ->
      json (feed pre) = Pending ->
      includes a begin = false ->
      includes b end_ = false ->
      feed (pre ++ [(a ++ begin ++ b ++ end_ ++ d)%string] ++ post)%list
      = mkState "" (Fulfilled (trim b)) false)
  /\ feed [ "noise ";
            "RESULT_BEGIN{" ++ dquote ++ "a" ++ dquote
              ++ ":1}RESULT_END trailing" ]
     = mkState "" (Fulfilled ("{" ++ dquote ++ "a" ++ dquote ++ ":1}")) false.
Proof.
  split; [|reflexivity].
  intros pre a b d post Hpre Hp Ha Hb.
  rewrite ExtractorFacts.feed_app.
  rewrite (ExtractorFacts.pending_beforeBegin (feed pre)
             (ExtractorFacts.beforeBegin_feed pre Hpre) Hp).
  change (map StdoutData ([(a ++ begin ++ b ++ end_ ++ d)%string] ++ post))
    with (StdoutData (a ++ begin ++ b ++ end_ ++ d) :: map StdoutData post).
  rewrite ExtractorFacts.run_initial_data.
  rewrite ExtractorFacts.onData_both by (assumption || reflexivity).
  apply ExtractorFacts.run_unregistered. reflexivity.
Qed.

Lemma C5_witness :
  feed (["noise "; "(lldb) run"]
        ++ [("echo " ++ begin ++ " [1, 2] " ++ end_ ++ " (lldb) ")%string]
        ++ ["bye"; "RESULT_END"])%list
  = mkState "" (Fulfilled "[1, 2]") false.
Proof.
  apply (proj1 C5_both_sentinels_in_one_chunk
           ["noise "; "(lldb) run"] "echo " " [1, 2] " " (lldb) "
           ["bye"; "RESULT_END"]).
  - repeat constructor.
  - reflexivity.
  - reflexivity.
  - reflexivity.
Defined.

(** C6.  When no chunk of the sequence holds [RESULT_END], the promise is
    still pending after the whole sequence and the listener is still
    registered: the extractor has not resolved, and nothing failed. *)
Theorem C6_no_end_sentinel_never_resolves (chunks : list string) :
  Forall (fun c => includes c end_ = false) chunks ->
  json (feed chunks) = Pending /\ listening (feed chunks) = true.
Proof.
  intros Hall. unfold feed, run.
  assert (Hgen : forall st,
            json st = Pending /\ listening st = true ->
            json (fold_left dispatch (map StdoutData chunks) st) = Pending
            /\ listening (fold_left dispatch (map StdoutData chunks) st)
               = true).
  { induction Hall as [|c chunks Hc _ IH]; intros st [Hj Hl]; [now split|].
    simpl map. simpl fold_left. apply IH. rewrite Hl.
    destruct (ExtractorFacts.onData_no_end st c Hc) as [-> ->].
    now split. }
  apply Hgen. split; reflexivity.
Qed.

Lemma C6_witness :
  json (feed ["RESULT_BEGIN {"; "partial"; "RESULT_EN"; "D}"]) = Pending
  /\ listening (feed ["RESULT_BEGIN {"; "partial"; "RESULT_EN"; "D}"]) = true.
Proof.
  apply (C6_no_end_sentinel_never_resolves
           ["RESULT_BEGIN {"; "partial"; "RESULT_EN"; "D}"]).
  repeat constructor.
Defined.

End ExtractorClaims.

(** ** Command assembly *)

Module AssemblyFacts.

Lemma filter_id {A : Type} (f : A -> bool) (l : list A) :
  Forall (fun x => f x = true) l -> filter f l = l.
Proof.
  induction 1 as [|x l Hx _ IH]; simpl; [reflexivity|].
  now rewrite Hx, IH.
Qed.

Lemma truthy_nonempty (s : string) : Js.truthy s = true <-> s <> "".
Proof. destruct s; simpl; split; congruence. Qed.

Lemma toDockerMountArgs_mount (src tgt : string) :
  toDockerMountArgs (mount src tgt) = bindFlag src tgt.
Proof. reflexivity. Qed.

(** Both tokens of a [--mount] entry are non-empty, whatever the mount. *)
Lemma toDockerMountArgs_truthy (m : DockerMount) :
  Forall (fun t => Js.truthy t = true) (toDockerMountArgs m).
Proof.
  destruct m as [[[]|] src tgt [[|]|]]; repeat constructor.
Qed.

Lemma ownProperty_configs_none (ext : string) :
  ~ In ext [".c"; ".cpp"; ".php"; ".py"] ->
  ownProperty dockerRunConfigs ext = None.
Proof.
  intros Hn. unfold dockerRunConfigs, ownProperty.
  repeat match goal with
         | |- context [String.eqb ?k ext] =>
             destruct (String.eqb_spec k ext) as [He|_];
             [exfalso; apply Hn; rewrite <- He; simpl; tauto|]
         end.
  reflexivity.
Qed.

(** A key that is empty or begins with a dot names no member of
    [Object.prototype]. *)
Lemma not_inherited (key : string) :
  key = "" \/ Js.startsWith key "." = true ->
  existsb (String.eqb key) objectPrototypeKeys = false.
Proof.
  intros [-> | Hk]; [reflexivity|].
  destruct key as [|c rest]; [discriminate|].
  cbn [Js.startsWith] in Hk. apply andb_true_iff in Hk as [Hc _].
  apply Ascii.eqb_eq in Hc; subst c. reflexivity.
Qed.

Lemma getProperty_configs_missing {H : Host} {L : HostLaws H}
    (path : string) :
  ~ In (extname path) [".c"; ".cpp"; ".php"; ".py"] ->
  getProperty dockerRunConfigs (extname path) = Missing.
Proof.
  intros Hn. unfold getProperty.
  rewrite (ownProperty_configs_none _ Hn).
  now rewrite (not_inherited _ (extname_shape path)).
Qed.

End AssemblyFacts.

(** *** POSIX paths *)

Module PosixFacts.

Import Posix.
Local Open Scope Z_scope.

Lemma indexedFrom_lower (s : string) (i : Z) :
  Forall (fun ic => i <= fst ic) (indexedFrom i s).
Proof.
  revert i; induction s as [|c s IH]; intros i; simpl; constructor.
  - simpl; lia.
  - eapply Forall_impl; [|apply (IH (i + 1))]. simpl; intros; lia.
Qed.

Lemma tl_indexed_lower (s : string) :
  Forall (fun ic => 1 <= fst ic) (tl (indexed s)).
Proof.
  destruct s as [|c s]; simpl; [constructor|].
  apply (indexedFrom_lower s (0 + 1)).
Qed.

(** The loop of [dirname] either leaves [end] at [-1] or sets it to a
    position it visited. *)
Lemma dirScan_end (path : string) :
  dirEnd (dirScan path) = -1 \/ 1 <= dirEnd (dirScan path).
Proof.
  unfold dirScan.
  assert (Hgen : forall l st,
            Forall (fun ic => 1 <= fst ic) l ->
            dirEnd st = -1 \/ 1 <= dirEnd st ->
            dirEnd (fold_left dirStep l st) = -1
            \/ 1 <= dirEnd (fold_left dirStep l st)).
  { induction l as [|[i c] l IH]; intros st Hl Hst; [exact Hst|].
    inversion Hl as [|? ? Hi Hl']; subst. simpl fold_left. apply IH; [exact Hl'|].
    unfold dirStep. destruct (dirBroke st); [exact Hst|].
    destruct (Ascii.eqb c slash); [|exact Hst].
    destruct (negb (dirMatchedSlash st)); [|exact Hst].
    right. exact Hi. }
  apply Hgen.
  - apply Forall_rev, tl_indexed_lower.
  - now left.
Qed.

(** The directory of an absolute path is absolute. *)
Lemma dirname_absolute (path : string) :
  startsWithSlash path = true -> startsWithSlash (dirname path) = true.
Proof.
  intros Hp. unfold dirname.
  destruct path as [|c path]; [discriminate|].
  change (Js.len (String c path) =? 0) with false. cbv iota.
  rewrite Hp.
  destruct (Z.eqb_spec (dirEnd (dirScan (String c path))) (-1)) as [|Hne];
    [reflexivity|].
  simpl andb.
  destruct (dirEnd (dirScan (String c path)) =? 1); [reflexivity|].
  destruct (dirScan_end (String c path)) as [|Hpos]; [contradiction|].
  rewrite JsFacts.slice0_take by lia.
  destruct (Z.to_nat (dirEnd (dirScan (String c path)))) as [|n] eqn:Hn;
    [lia|].
  exact Hp.
Qed.

(** [path.resolve(a, b)] is decided by [b] alone when [b] is absolute. *)
Lemma resolve_absolute (dir a a' b : string) :
  startsWithSlash b = true -> resolve dir a b = resolve dir a' b.
Proof.
  intros Hb. unfold resolve, resolveAll.
  destruct b as [|c b]; [discriminate|].
  simpl rev. simpl app. unfold resolveLoop.
  change (Js.len (String c b) =? 0) with false. cbv iota.
  rewrite Hb. reflexivity.
Qed.

(** The scan of [extname] never finds a dot in a path that has none. *)
Lemma extScan_no_dot (path : string) :
  StringAux.occurs dot path = false -> startDot (extScan path) = -1.
Proof.
  intros Hnd. unfold extScan.
  assert (Hall : Forall (fun ic => Ascii.eqb (snd ic) dot = false)
                   (rev (indexed path))).
  { apply Forall_rev. unfold indexed. generalize 0.
    induction path as [|c path IH]; intros i; simpl; constructor.
    - simpl in *. apply orb_false_iff in Hnd as [Hc _].
      now rewrite Ascii.eqb_sym.
    - apply IH. simpl in Hnd. now apply orb_false_iff in Hnd as [_ ?]. }
  assert (Hgen : forall l st,
            Forall (fun ic => Ascii.eqb (snd ic) dot = false) l ->
            startDot st = -1 -> startDot (fold_left extStep l st) = -1).
  { induction l as [|[i c] l IH]; intros st Hl Hst; [exact Hst|].
    inversion Hl as [|? ? Hc Hl']; subst. simpl in Hc.
    simpl fold_left. apply IH; [exact Hl'|].
    unfold extStep. destruct (extBroke st); [exact Hst|].
    destruct (Ascii.eqb c slash).
    - destruct (negb (extMatchedSlash st)); exact Hst.
    - rewrite Hc. destruct (extEnd st =? -1); simpl; rewrite Hst;
        simpl; assumption || reflexivity. }
  now apply Hgen.
Qed.

(** A path without any dot has the empty extension. *)
Lemma extname_no_dot (path : string) :
  StringAux.occurs dot path = false -> extname path = ""%string.
Proof.
  intros Hnd. unfold extname. now rewrite (extScan_no_dot path Hnd).
Qed.

Lemma indexedFrom_get (s : string) (k i : Z) (c : ascii) :
  In (i, c) (indexedFrom k s) ->
  k <= i /\ String.get (Z.to_nat (i - k)) s = Some c.
Proof.
  revert k; induction s as [|a s IH]; intros k Hin; [contradiction|].
  destruct Hin as [E | Hin].
  - injection E as <- <-. rewrite Z.sub_diag. split; [lia | reflexivity].
  - apply IH in Hin as [Hle Hget]. split; [lia|].
    replace (Z.to_nat (i - k)) with (S (Z.to_nat (i - (k + 1)))) by lia.
    exact Hget.
Qed.

(** When the scan of [extname] has found a dot, [startDot] is a position of
    the path that holds one. *)
Lemma extScan_dot (path : string) :
  startDot (extScan path) = -1
  \/ (0 <= startDot (extScan path)
      /\ String.get (Z.to_nat (startDot (extScan path))) path = Some dot).
Proof.
  unfold extScan.
  set (visited := fun ic : Z * ascii =>
         0 <= fst ic /\ String.get (Z.to_nat (fst ic)) path = Some (snd ic)).
  set (found := fun st : ExtScan =>
         startDot st = -1
         \/ (0 <= startDot st
             /\ String.get (Z.to_nat (startDot st)) path = Some dot)).
  assert (Hall : Forall visited (rev (indexed path))).
  { apply Forall_rev, Forall_forall. intros [i c] Hin.
    apply indexedFrom_get in Hin as [Hle Hget].
    rewrite Z.sub_0_r in Hget. now split. }
  assert (Hgen : forall l st,
            Forall visited l -> found st -> found (fold_left extStep l st)).
  { induction l as [|[i c] l IH]; intros st Hl Hst; [exact Hst|].
    inversion Hl as [|? ? [Hi Hc] Hl']; subst. simpl in Hi, Hc.
    simpl fold_left. apply IH; [exact Hl'|].
    unfold extStep. destruct (extBroke st); [exact Hst|].
    destruct (Ascii.eqb c slash).
    { destruct (negb (extMatchedSlash st)); exact Hst. }
    assert (Hst1 : found (if extEnd st =? -1
                          then mkExtScan (startDot st) (startPart st) (i + 1)
                                 false (preDotState st) false
                          else st))
      by (destruct (extEnd st =? -1); exact Hst).
    set (st1 := if extEnd st =? -1
                then mkExtScan (startDot st) (startPart st) (i + 1)
                       false (preDotState st) false
                else st) in *.
    destruct (Ascii.eqb_spec c dot) as [-> | _].
    - destruct (startDot st1 =? -1).
      + right. simpl. now split.
      + destruct (negb (preDotState st1 =? 1)); exact Hst1.
    - destruct (negb (startDot st1 =? -1)); exact Hst1. }
  apply Hgen; [exact Hall | now left].
Qed.

Lemma get_lt (s : string) (n : nat) (c : ascii) :
  String.get n s = Some c -> (n < String.length s)%nat.
Proof.
  revert n; induction s as [|a s IH]; intros [|n] Hg; simpl in *;
    try discriminate; try lia.
  apply IH in Hg. lia.
Qed.

Lemma substring_head (s : string) (n m : nat) (c : ascii) :
  String.get n s = Some c ->
  substring n m s = ""%string \/ exists r, substring n m s = String c r.
Proof.
  revert n; induction s as [|a s IH]; intros [|n] Hg; simpl in *;
    try discriminate.
  - injection Hg as ->. destruct m; [now left | right; eauto].
  - now apply IH.
Qed.

(** An extension is empty or begins with a dot. *)
Lemma extname_shape_posix (path : string) :
  extname path = ""%string \/ Js.startsWith (extname path) "." = true.
Proof.
  unfold extname.
  destruct (startDot (extScan path) =? -1) eqn:Hsd; [now left|].
  match goal with |- context [if ?b then _ else _] => destruct b end;
    [now left|].
  destruct (extScan_dot path) as [Hd | [Hpos Hget]];
    [apply Z.eqb_neq in Hsd; contradiction|].
  pose proof (get_lt _ _ _ Hget) as Hlt.
  unfold Js.slice, Js.clamp, Js.len.
  destruct (Z.ltb_spec (startDot (extScan path)) 0) as [?|_]; [lia|].
  rewrite (Z.min_l (startDot (extScan path))) by lia.
  destruct (substring_head path (Z.to_nat (startDot (extScan path)))
              (Z.to_nat
                 (Z.max
                    ((if extEnd (extScan path) <? 0
                      then Z.max (Z.of_nat (String.length path)
                                  + extEnd (extScan path)) 0
                      else Z.min (extEnd (extScan path))
                             (Z.of_nat (String.length path)))
                     - startDot (extScan path)) 0))
              dot Hget) as [-> | [r ->]]; [now left | right; reflexivity].
Qed.

Lemma posixHost_laws (dir : string) : HostLaws (posixHost dir).
Proof.
  split; [reflexivity | exact extname_shape_posix].
Qed.

End PosixFacts.

(** *** The claims on runtime selection and command assembly *)

Section AssemblyClaims.

Context {H : Host}.

(** C3, amended.  The project-directory mount binds the parent directory of
    the main file resolved against the working directory of the host to the
    same directory resolved against the sandbox root [/usr/project], and it
    is the last mount of the command.  With POSIX paths the source and the
    target of that mount are the same path whenever the main-file path is
    absolute. *)
Theorem C3_project_mount_mirrors_roots :
  (forall (docker : DockerRunConfig) (mainFilePath logLevel : string),
      exists front,
        args (dockerRunCommand docker mainFilePath logLevel)
        = (front
           ++ bindFlag
                (resolve cwd (dirname mainFilePath))
                (resolve "/usr/project" (dirname mainFilePath))
           ++ filter Js.truthy [imageName (image docker); mainFilePath])%list)
  /\ (forall (dir mainFilePath : string),
         Posix.startsWithSlash mainFilePath = true ->
         source (projectMount (H := posixHost dir) mainFilePath)
         = target (projectMount (H := posixHost dir) mainFilePath)).
Proof.
  split.
  - intros docker mainFilePath logLevel.
    unfold dockerRunCommand. cbn [args].
    exists (filter Js.truthy
              (List.concat
                 [ [ "run"; "-it"; "--rm"; "--env"; "LOG_LEVEL=" ++ logLevel ];
                   flat_map toDockerMountArgs (mountsPerImage (image docker));
                   toDockerMountArgs (mount (output paths (selfRoot paths))
                                            (output paths (dockerRoot paths)));
                   toDockerMountArgs
                     (mount (nodeModules paths (selfRoot paths))
                            (nodeModules paths (dockerRoot paths))) ])).
    match goal with
    | |- filter _ (List.concat [?A; ?B; ?C; ?D; ?E; ?F]) = _ =>
        change [A; B; C; D; E; F] with ([A; B; C; D] ++ [E; F])%list
    end.
    rewrite concat_app, filter_app. f_equal.
  - intros dir mainFilePath Habs. unfold projectMount. simpl.
    apply PosixFacts.resolve_absolute.
    now apply PosixFacts.dirname_absolute.
Qed.

(** C4.  When the extension of the path is none of [.c], [.cpp], [.php] and
    [.py], [callScript] throws before any effect: no listener is registered,
    no command is assembled or spawned.  The message names the extension and
    lists every key of the table between double quotes. *)
Theorem C4_unsupported_extension_is_thrown
    (L : HostLaws H) (mainFilePath : string) (logLevel : option string) :
  ~ In (extname mainFilePath) [".c"; ".cpp"; ".php"; ".py"] ->
  keys dockerRunConfigs = [".c"; ".cpp"; ".php"; ".py"]
  /\ callScript mainFilePath logLevel
     = ([], Thrown (Error (unknownExtension (extname mainFilePath))))
  /\ unknownExtension (extname mainFilePath)
     = "Unknown extension " ++ Js.dquote ++ extname mainFilePath ++ Js.dquote
       ++ ". Accepted: "
       ++ Js.dquote ++ ".c" ++ Js.dquote ++ ", "
       ++ Js.dquote ++ ".cpp" ++ Js.dquote ++ ", "
       ++ Js.dquote ++ ".php" ++ Js.dquote ++ ", "
       ++ Js.dquote ++ ".py" ++ Js.dquote
  /\ (forall k, In k (keys dockerRunConfigs) ->
        Js.includes (unknownExtension (extname mainFilePath))
                    (Js.dquote ++ k ++ Js.dquote) = true).
Proof.
  intros Hn. split; [reflexivity|]. split; [|split].
  - unfold callScript.
    now rewrite (AssemblyFacts.getProperty_configs_missing _ Hn).
  - reflexivity.
  - intros k Hk. unfold unknownExtension.
    do 3 apply JsFacts.includes_app_r.
    simpl in Hk.
    destruct Hk as [<- | [<- | [<- | [<- | []]]]]; reflexivity.
Qed.

(** C8.  For a main-file path whose extension has an entry in the table, the
    command is [docker] with the arguments [run], [-it], [--rm], [--env],
    [LOG_LEVEL=<level>], then the [--mount] entries of the image, of the
    output directory, of the dependency directory and of the project
    directory in this order, then the image name and last the main-file path
    as it was given; this is the command [callScript] spawns. *)
Theorem C8_argument_list_structure
    (L : HostLaws H) (mainFilePath : string) (logLevel : option string) :
  In (extname mainFilePath) [".c"; ".cpp"; ".php"; ".py"] ->
  exists docker : DockerRunConfig,
    getProperty dockerRunConfigs (extname mainFilePath) = Own docker
    /\ let level := match logLevel with Some l => l | None => "off" end in
       let expected :=
         ([ "run"; "-it"; "--rm"; "--env"; ("LOG_LEVEL=" ++ level)%string ]
          ++ flat_map (fun m => bindFlag (source m) (target m))
                      (mountsPerImage (image docker))
          ++ bindFlag (resolve cwd "./out")
                      (resolve "/usr/project" "./out")
          ++ bindFlag (resolve cwd "./node_modules")
                      (resolve "/usr/project" "./node_modules")
          ++ bindFlag (resolve cwd (dirname mainFilePath))
                      (resolve "/usr/project" (dirname mainFilePath))
          ++ [ imageName (image docker); mainFilePath ])%list in
       dockerRunCommand docker mainFilePath level = mkPlan "docker" expected
       /\ callScript mainFilePath logLevel
          = ([ ProcessOn "error";
               StdoutOn "data";
               ConsoleInfo (commandInfo (mkPlan "docker" expected));
               SpawnSync "docker" expected "inherit" ],
             AwaitJson).
Proof.
  intros Hin.
  assert (Hne : mainFilePath <> "").
  { intros ->. rewrite extname_empty in Hin. simpl in Hin.
    destruct Hin as [E | [E | [E | [E | []]]]]; discriminate E. }
  assert (Hd : exists docker,
             getProperty dockerRunConfigs (extname mainFilePath)
             = Own docker).
  { simpl in Hin. destruct Hin as [E | [E | [E | [E | []]]]];
      rewrite <- E; eexists; reflexivity. }
  destruct Hd as [docker Hd]. exists docker. split; [exact Hd|].
  intros level expected.
  assert (Hplan : dockerRunCommand docker mainFilePath level
                  = mkPlan "docker" expected).
  { unfold dockerRunCommand, expected. f_equal.
    destruct mainFilePath as [|c rest]; [congruence|].
    destruct docker as [[]]; reflexivity. }
  split; [exact Hplan|].
  unfold callScript. rewrite Hd. fold level. rewrite Hplan. reflexivity.
Qed.

(** C9.  Whatever the descriptor, the log level and the main-file path, no
    token of the assembled argument list is empty (the only falsy value a
    string can be).  The [--mount] tokens are non-empty for every list of
    mounts, and an image without mounts of its own, as the python one,
    contributes no token at all. *)
Theorem C9_no_empty_token :
  (forall (docker : DockerRunConfig) (mainFilePath logLevel : string),
      Forall (fun t => Js.truthy t = true /\ t <> "")
             (args (dockerRunCommand docker mainFilePath logLevel)))
  /\ (forall mounts : list DockerMount,
         Forall (fun t => t <> "") (flat_map toDockerMountArgs mounts))
  /\ flat_map toDockerMountArgs (mountsPerImage python_debugger) = [].
Proof.
  split; [|split].
  - intros docker mainFilePath logLevel. apply Forall_forall. intros t Ht.
    unfold dockerRunCommand in Ht. cbn [args] in Ht.
    apply filter_In in Ht as [_ Ht]. split; [exact Ht|].
    now apply AssemblyFacts.truthy_nonempty.
  - intros mounts. induction mounts as [|m mounts IH]; [constructor|].
    cbn [flat_map]. apply Forall_app. split; [|exact IH].
    eapply Forall_impl; [|apply AssemblyFacts.toDockerMountArgs_truthy].
    intros t. apply AssemblyFacts.truthy_nonempty.
  - reflexivity.
Qed.

(** C10.  When [path.extname] gives the empty string for the main-file path,
    the lookup finds no entry, since the table has no empty key, and
    [callScript] throws the unknown-extension error before any effect. *)
Theorem C10_no_extension_is_thrown
    (mainFilePath : string) (logLevel : option string) :
  extname mainFilePath = "" ->
  getProperty dockerRunConfigs (extname mainFilePath) = Missing
  /\ callScript mainFilePath logLevel
     = ([], Thrown (Error (unknownExtension ""))).
Proof.
  intros He. unfold callScript. rewrite He. split; reflexivity.
Qed.

End AssemblyClaims.

(** C3, as stated, fails: with the working directory [/home/user/debuggers]
    and the main file [sources/main.py], the project mount has the source
    [/home/user/debuggers/sources] and the target [/usr/project/sources]. *)
Lemma C3_counterexample :
  let H := posixHost "/home/user/debuggers" in
  projectMount "sources/main.py"
  = mount "/home/user/debuggers/sources" "/usr/project/sources"
  /\ source (projectMount "sources/main.py")
     <> target (projectMount "sources/main.py").
Proof. vm_compute. split; [reflexivity | discriminate]. Qed.

Lemma C3_witness :
  source (projectMount (H := posixHost "/home/user/debuggers")
            "/srv/work/main.py")
  = target (projectMount (H := posixHost "/home/user/debuggers")
              "/srv/work/main.py").
Proof.
  apply (proj2 (C3_project_mount_mirrors_roots
                  (H := posixHost "/home/user/debuggers"))
           "/home/user/debuggers" "/srv/work/main.py").
  reflexivity.
Defined.

Lemma C4_witness :
  callScript (H := posixHost "/home/user/debuggers") "notes/readme.txt" None
  = ([], Thrown (Error (unknownExtension ".txt"))).
Proof.
  assert (E : extname (Host := posixHost "/home/user/debuggers")
                "notes/readme.txt" = ".txt")
    by (vm_compute; reflexivity).
  rewrite <- E.
  apply (C4_unsupported_extension_is_thrown
           (H := posixHost "/home/user/debuggers")
           (PosixFacts.posixHost_laws "/home/user/debuggers")
           "notes/readme.txt" None).
  rewrite E. simpl. intros [F | [F | [F | [F | []]]]]; discriminate F.
Defined.

(** C7.  The mount [{source: "/a", target: "/b", readOnly: true}] gives the
    value [type=bind,source=/a,target=/b,readonly] after [--mount]; a mount
    whose [readOnly] is absent or [false] gives [type=bind], [source=...] and
    [target=...] joined by commas and nothing after the target, and a
    read-only mount gives the same followed by [,readonly]. *)
Theorem C7_mount_flag_serialization :
  toDockerMountArgs (mkMount None "/a" "/b" (Some true))
  = ["--mount"; "type=bind,source=/a,target=/b,readonly"]
  /\ (forall (ty : option MountType) (src tgt : string),
         toDockerMountArgs (mkMount ty src tgt None)
         = ["--mount"; "type=bind,source=" ++ src ++ ",target=" ++ tgt]
         /\ toDockerMountArgs (mkMount ty src tgt (Some false))
            = ["--mount"; "type=bind,source=" ++ src ++ ",target=" ++ tgt]
         /\ toDockerMountArgs (mkMount ty src tgt (Some true))
            = ["--mount";
               "type=bind,source=" ++ src ++ ",target=" ++ tgt
               ++ ",readonly"]).
Proof.
  split; [reflexivity|].
  intros [[]|] src tgt; repeat split; simpl;
    repeat f_equal; now rewrite ?JsFacts.app_assoc.
Qed.

Lemma C8_witness :
  exists docker : DockerRunConfig,
    image docker = lldb_debugger
    /\ callScript (H := posixHost "/home/user/debuggers")
         "sources/main.c" None
       = ([ ProcessOn "error";
            StdoutOn "data";
            ConsoleInfo
              (commandInfo
                 (mkPlan "docker"
                    [ "run"; "-it"; "--rm"; "--env"; "LOG_LEVEL=off";
                      "--mount";
                      "type=bind,source=/home/user/debuggers/vscode-lldb,target=/usr/project/vscode-lldb";
                      "--mount";
                      "type=bind,source=/home/user/debuggers/out,target=/usr/project/out";
                      "--mount";
                      "type=bind,source=/home/user/debuggers/node_modules,target=/usr/project/node_modules";
                      "--mount";
                      "type=bind,source=/home/user/debuggers/sources,target=/usr/project/sources";
                      imageName (image docker); "sources/main.c" ]));
            SpawnSync "docker"
              [ "run"; "-it"; "--rm"; "--env"; "LOG_LEVEL=off";
                "--mount";
                "type=bind,source=/home/user/debuggers/vscode-lldb,target=/usr/project/vscode-lldb";
                "--mount";
                "type=bind,source=/home/user/debuggers/out,target=/usr/project/out";
                "--mount";
                "type=bind,source=/home/user/debuggers/node_modules,target=/usr/project/node_modules";
                "--mount";
                "type=bind,source=/home/user/debuggers/sources,target=/usr/project/sources";
                imageName (image docker); "sources/main.c" ]
              "inherit" ],
          AwaitJson).
Proof.
  assert (Hin : In (extname (Host := posixHost "/home/user/debuggers")
                      "sources/main.c")
                   [".c"; ".cpp"; ".php"; ".py"])
    by (vm_compute; tauto).
  destruct (C8_argument_list_structure
              (H := posixHost "/home/user/debuggers")
              (PosixFacts.posixHost_laws "/home/user/debuggers")
              "sources/main.c" None Hin)
    as [docker [Hd [_ Hcall]]].
  exists docker.
  assert (Hi : image docker = lldb_debugger).
  { vm_compute in Hd. injection Hd as <-. reflexivity. }
  split; [exact Hi|].
  rewrite Hcall. rewrite Hi. vm_compute. reflexivity.
Defined.

Lemma C10_witness :
  callScript (H := posixHost "/home/user/debuggers") "Makefile" (Some "info")
  = ([], Thrown (Error (unknownExtension ""))).
Proof.
  apply (proj2 (C10_no_extension_is_thrown
                  (H := posixHost "/home/user/debuggers")
                  "Makefile" (Some "info")
                  (PosixFacts.extname_no_dot "Makefile" eq_refl))).
Defined.

(** * Further properties of the extractor *)

Module ExtractorInvariants.

Import Js StringAux JsFacts Extractor ExtractorStates.

Lemma afterBegin_json (st : State) (m : string) :
  json (fst (afterBegin st m)) = json st
  /\ listening (fst (afterBegin st m)) = listening st.
Proof.
  unfold afterBegin. destruct (includes m begin); [|now split].
  destruct (negb (includes (sliceFrom m (indexOf m begin + len begin)) end_));
    now split.
Qed.

Lemma atEnd_settled (st : State) (m : string) :
  json st <> Pending -> json (atEnd st m) = json st.
Proof.
  intros Hs. unfold atEnd. destruct (includes m end_); [|reflexivity].
  unfold off, resolve. simpl. destruct (json st) eqn:Hj; simpl; congruence.
Qed.

(** [onData] never changes a promise that is already settled. *)
Lemma onData_settled (st : State) (c : string) :
  json st <> Pending -> json (onData st c) = json st.
Proof.
  intros Hs. unfold onData.
  pose proof (afterBegin_json st c) as [Hj _].
  destruct (afterBegin st c) as [st1 m]. simpl in Hj.
  rewrite atEnd_settled; congruence.
Qed.

Lemma dispatch_settled (st : State) (ev : Event) :
  json st <> Pending -> json (dispatch st ev) = json st.
Proof.
  intros Hs. destruct ev as [c | e]; simpl.
  - destruct (listening st); [now apply onData_settled | reflexivity].
  - unfold reject. destruct (json st) eqn:Hj; simpl; congruence.
Qed.

Lemma run_settled (st : State) (evs : list Event) :
  json st <> Pending -> json (run st evs) = json st.
Proof.
  revert st; induction evs as [|ev evs IH]; intros st Hs; [reflexivity|].
  change (run st (ev :: evs)) with (run (dispatch st ev) evs).
  rewrite IH; rewrite dispatch_settled by exact Hs; [reflexivity | exact Hs].
Qed.

(** A chunk with the begin sentinel and no end sentinel behind it appends
    what follows the begin sentinel to [raw]. *)
Lemma onData_begin_only (st : State) (a b : string) :
  includes a begin = false -> includes b end_ = false ->
  onData st (a ++ begin ++ b) = addRaw b st.
Proof.
  intros Ha Hb.
  pose proof (search_app begin a b eq_refl Ha) as Hsb.
  apply includes_indexOf in Hsb as [Hib Hxb].
  unfold onData, afterBegin. rewrite Hib, Hxb.
  rewrite sliceFrom_skip by (unfold len; lia).
  replace (Z.to_nat (Z.of_nat (String.length a) + len begin))
    with (String.length (a ++ begin))
    by (rewrite length_app; unfold len; lia).
  rewrite <- (app_assoc a begin b), skip_app.
  rewrite Hb. simpl negb. cbv iota. unfold atEnd. now rewrite Hb.
Qed.

(** A chunk with the end sentinel and no begin sentinel settles a pending
    promise with [raw] followed by what precedes the end sentinel. *)
Lemma onData_end_only (st : State) (c d : string) :
  json st = Pending ->
  includes (c ++ end_ ++ d) begin = false -> includes c end_ = false ->
  onData st (c ++ end_ ++ d)
  = mkState (raw st) (Fulfilled (trim (raw st ++ c))) false.
Proof.
  intros Hp Hnb Hc.
  pose proof (search_app end_ c d eq_refl Hc) as Hse.
  apply includes_indexOf in Hse as [Hie Hxe].
  unfold onData, afterBegin. rewrite Hnb.
  unfold atEnd. rewrite Hie, Hxe.
  rewrite slice0_take by lia. rewrite Nat2Z.id, take_app.
  unfold off, resolve. now rewrite Hp.
Qed.

Lemma inStep_dispatch (st : State) (c : string) :
  inStep st -> inStep (dispatch st (StdoutData c)).
Proof.
  intros [[Hp Hl] | [Hv Hl]]; simpl; rewrite Hl; [|now right].
  unfold onData, afterBegin, atEnd.
  destruct (includes c begin).
  - destruct (includes (sliceFrom c (indexOf c begin + len begin)) end_);
      simpl.
    + right. unfold resolve. rewrite Hp. simpl. eauto.
    + left. now split.
  - destruct (includes c end_); [|now left].
    right. unfold resolve. rewrite Hp. simpl. eauto.
Qed.

Lemma inStep_run (st : State) (chunks : list string) :
  inStep st -> inStep (run st (map StdoutData chunks)).
Proof.
  revert st; induction chunks as [|c chunks IH]; intros st Hst; [exact Hst|].
  simpl map.
  change (run st (StdoutData c :: map StdoutData chunks))
    with (run (dispatch st (StdoutData c)) (map StdoutData chunks)).
  apply IH. now apply inStep_dispatch.
Qed.

(** While no chunk holds the end sentinel the extractor keeps listening. *)
Lemma no_end_listening (chunks : list string) :
  Forall (fun c => includes c end_ = false) chunks ->
  json (feed chunks) = Pending /\ listening (feed chunks) = true.
Proof.
  intros Hall. unfold feed.
  assert (Hgen : forall st,
            json st = Pending /\ listening st = true ->
            json (run st (map StdoutData chunks)) = Pending
            /\ listening (run st (map StdoutData chunks)) = true).
  { induction Hall as [|c chunks Hc _ IH]; intros st [Hj Hl]; [now split|].
    simpl map.
    change (run st (StdoutData c :: map StdoutData chunks))
      with (run (dispatch st (StdoutData c)) (map StdoutData chunks)).
    apply IH. simpl. rewrite Hl.
    destruct (ExtractorFacts.onData_no_end st c Hc) as [-> ->].
    now split. }
  apply Hgen. split; reflexivity.
Qed.

(** *** Trimming *)

Lemma trimStart_head (s : string) :
  match trimStart s with
  | "" => True
  | String c _ => isWhiteSpace c = false
  end.
Proof.
  induction s as [|c s IH]; simpl; [exact I|].
  destruct (isWhiteSpace c) eqn:Hc; [exact IH | exact Hc].
Qed.

Lemma trimEnd_cons (c : ascii) (s : string) :
  isWhiteSpace c = false -> exists r, trimEnd (String c s) = String c r.
Proof.
  intros Hc. simpl. destruct (trimEnd s); rewrite ?Hc; eauto.
Qed.

Lemma trimEnd_idem (s : string) : trimEnd (trimEnd s) = trimEnd s.
Proof.
  induction s as [|c s IH]; [reflexivity|].
  simpl. destruct (trimEnd s) as [|d r] eqn:Hr.
  - destruct (isWhiteSpace c) eqn:Hc; [reflexivity|].
    simpl. now rewrite Hc.
  - change (trimEnd (String c (String d r)))
      with (match trimEnd (String d r) with
            | "" => if isWhiteSpace c then "" else String c ""
            | x => String c x
            end).
    now rewrite IH.
Qed.

(** The head of a trimmed string is no white space. *)
Lemma trim_head (s : string) :
  match trim s with
  | "" => True
  | String c _ => isWhiteSpace c = false
  end.
Proof.
  unfold trim. pose proof (trimStart_head s) as Hh.
  destruct (trimStart s) as [|c t]; [exact I|].
  destruct (trimEnd_cons c t Hh) as [r ->]. exact Hh.
Qed.

Lemma trim_idem (s : string) : trim (trim s) = trim s.
Proof.
  pose proof (trim_head s) as Hh. unfold trim at 1.
  destruct (trim s) as [|c t] eqn:Ht; [reflexivity|].
  simpl trimStart. rewrite Hh. rewrite <- Ht. unfold trim.
  apply trimEnd_idem.
Qed.

Lemma trimmedValue_dispatch (st : State) (ev : Event) :
  trimmedValue st -> trimmedValue (dispatch st ev).
Proof.
  unfold trimmedValue. intros Hst.
  destruct (json st) as [|v|e] eqn:Hj.
  - destruct ev as [c | e]; simpl.
    + destruct (listening st); [|now rewrite Hj].
      unfold onData, afterBegin, atEnd.
      destruct (includes c begin).
      * destruct (includes (sliceFrom c (indexOf c begin + len begin)) end_);
          simpl; unfold resolve; simpl; rewrite Hj; simpl; eauto.
      * destruct (includes c end_); simpl; unfold resolve; rewrite Hj;
          simpl; eauto.
    + unfold reject. rewrite Hj. simpl. exact I.
  - rewrite dispatch_settled by congruence. now rewrite Hj.
  - rewrite dispatch_settled by congruence. now rewrite Hj.
Qed.

Lemma trimmedValue_run (st : State) (evs : list Event) :
  trimmedValue st -> trimmedValue (run st evs).
Proof.
  revert st; induction evs as [|ev evs IH]; intros st Hst; [exact Hst|].
  change (run st (ev :: evs)) with (run (dispatch st ev) evs).
  apply IH. now apply trimmedValue_dispatch.
Qed.

End ExtractorInvariants.

Section ExtractorExtras.

Import Js Extractor.

(** X1.  The promise is settled at most once: whatever events follow (chunks
    or process errors), a promise that is fulfilled or rejected keeps the
    value or the error it was settled with. *)
Theorem X1_promise_settled_once (evs1 evs2 : list Event) :
  json (run initial evs1) <> Pending ->
  json (run initial (evs1 ++ evs2)%list) = json (run initial evs1).
Proof.
  intros Hs. rewrite ExtractorFacts.run_app.
  now apply ExtractorInvariants.run_settled.
Qed.

Lemma X1_witness :
  json (run initial
          ([StdoutData "RESULT_BEGIN 1 RESULT_END"]
           ++ [ProcessError "EPIPE"; StdoutData "RESULT_BEGIN 2 RESULT_END"])
          %list)
  = json (run initial [StdoutData "RESULT_BEGIN 1 RESULT_END"]).
Proof.
  apply (X1_promise_settled_once
           [StdoutData "RESULT_BEGIN 1 RESULT_END"]
           [ProcessError "EPIPE"; StdoutData "RESULT_BEGIN 2 RESULT_END"]).
  discriminate.
Defined.

(** X2.  A process error that arrives while the promise is pending rejects
    it with that error, and no later chunk, not even one holding both
    sentinels, turns the rejection into a result. *)
Theorem X2_process_error_rejects
    (evs1 : list Event) (e : string) (evs2 : list Event) :
  json (run initial evs1) = Pending ->
  json (run initial (evs1 ++ ProcessError e :: evs2)%list) = Rejected e.
Proof.
  intros Hp. rewrite ExtractorFacts.run_app.
  change (run (run initial evs1) (ProcessError e :: evs2))
    with (run (reject e (run initial evs1)) evs2).
  assert (Hr : json (reject e (run initial evs1)) = Rejected e)
    by (unfold reject; now rewrite Hp).
  rewrite ExtractorInvariants.run_settled; [exact Hr | congruence].
Qed.

Lemma X2_witness :
  json (run initial
          ([StdoutData "RESULT_BEGIN partial"]
           ++ ProcessError "spawn docker ENOENT"
              :: [StdoutData " rest RESULT_END"])%list)
  = Rejected "spawn docker ENOENT".
Proof.
  apply (X2_process_error_rejects
           [StdoutData "RESULT_BEGIN partial"] "spawn docker ENOENT"
           [StdoutData " rest RESULT_END"]).
  reflexivity.
Defined.

(** X3.  Whatever the events, a value the promise is fulfilled with is
    trimmed: trimming it again changes nothing, and it does not begin with
    white space. *)
Theorem X3_result_is_trimmed (evs : list Event) (v : string) :
  json (run initial evs) = Fulfilled v ->
  trim v = v
  /\ match v with
     | "" => True
     | String c _ => isWhiteSpace c = false
     end.
Proof.
  intros Hv.
  pose proof (ExtractorInvariants.trimmedValue_run initial evs I) as Ht.
  unfold ExtractorStates.trimmedValue in Ht. rewrite Hv in Ht.
  destruct Ht as [x ->]. split.
  - apply ExtractorInvariants.trim_idem.
  - apply ExtractorInvariants.trim_head.
Qed.

Lemma X3_witness :
  trim "[1, 2]" = "[1, 2]"
  /\ match "[1, 2]" with
     | "" => True
     | String c _ => isWhiteSpace c = false
     end.
Proof.
  apply (X3_result_is_trimmed
           [StdoutData "noise"; StdoutData "RESULT_BEGIN   [1, 2]  ";
            StdoutData (String (ascii_of_nat 9) " RESULT_END")]
           "[1, 2]").
  reflexivity.
Defined.

(** X4.  When only chunks arrive (no process error), the listener is
    registered exactly as long as the promise is pending: after any chunk
    sequence either the promise is pending and [onData] still listens, or
    it is fulfilled and [onData] has been removed; it is never rejected. *)
Theorem X4_listener_follows_promise (chunks : list string) :
  (json (feed chunks) = Pending /\ listening (feed chunks) = true)
  \/ ((exists v, json (feed chunks) = Fulfilled v)
      /\ listening (feed chunks) = false).
Proof.
  apply (ExtractorInvariants.inStep_run initial chunks).
  left. split; reflexivity.
Qed.

(** X5.  A payload split over two chunks is put together.  While no
    earlier chunk held the end sentinel, when a chunk holds the begin
    sentinel (and no end sentinel after it) and the next chunk holds the end
    sentinel (and no begin sentinel), the promise is fulfilled with the
    buffer so far, followed by what follows the begin sentinel in the first
    chunk and by what precedes the end sentinel in the second, trimmed, and
    later chunks change nothing.  When in addition no earlier chunk held the
    begin sentinel, the buffer so far is empty and the result is these two
    parts alone. *)
Theorem X5_payload_over_two_chunks
    (pre : list string) (a b c d : string) (post : list string) :
  Forall (fun p => includes p end_ = false) pre ->
  includes a begin = false ->
  includes b end_ = false ->
  includes (c ++ end_ ++ d) begin = false ->
  includes c end_ = false ->
  feed (pre ++ [(a ++ begin ++ b)%string; (c ++ end_ ++ d)%string] ++ post)%list
  = mkState (raw (feed pre) ++ b)
      (Fulfilled (trim ((raw (feed pre) ++ b) ++ c))) false
  /\ (Forall (fun p => includes p begin = false) pre ->
      feed (pre ++ [(a ++ begin ++ b)%string; (c ++ end_ ++ d)%string]
            ++ post)%list
      = mkState b (Fulfilled (trim (b ++ c))) false).
Proof.
  intros Hpre Ha Hb Hnb Hc.
  destruct (ExtractorInvariants.no_end_listening pre Hpre) as [Hj Hl].
  assert (Hgen :
    feed (pre ++ [(a ++ begin ++ b)%string; (c ++ end_ ++ d)%string]
          ++ post)%list
    = mkState (raw (feed pre) ++ b)
        (Fulfilled (trim ((raw (feed pre) ++ b) ++ c))) false).
  { rewrite ExtractorFacts.feed_app.
    change (run (feed pre)
              (map StdoutData
                 ([(a ++ begin ++ b)%string; (c ++ end_ ++ d)%string]
                  ++ post)))
      with (run
              (dispatch
                 (if listening (feed pre)
                  then onData (feed pre) (a ++ begin ++ b)
                  else feed pre)
                 (StdoutData (c ++ end_ ++ d)))
              (map StdoutData post)).
    rewrite Hl.
    rewrite ExtractorInvariants.onData_begin_only by assumption.
    change (dispatch (addRaw b (feed pre)) (StdoutData (c ++ end_ ++ d)))
      with (if listening (feed pre)
            then onData (addRaw b (feed pre)) (c ++ end_ ++ d)
            else addRaw b (feed pre)).
    rewrite Hl.
    rewrite ExtractorInvariants.onData_end_only by assumption.
    apply ExtractorFacts.run_unregistered. reflexivity. }
  split; [exact Hgen|].
  intros Hnobegin. rewrite Hgen.
  rewrite (ExtractorFacts.pending_beforeBegin (feed pre)
             (ExtractorFacts.beforeBegin_feed pre Hnobegin) Hj).
  reflexivity.
Qed.

Lemma X5_witness :
  feed (["RESULT_BEGIN x"; "(lldb) run"]
        ++ [("log " ++ begin ++ " {k:")%string; ("1} " ++ end_ ++ " bye")%string]
        ++ ["RESULT_BEGIN late RESULT_END"])%list
  = mkState (raw (feed ["RESULT_BEGIN x"; "(lldb) run"]) ++ " {k:")
      (Fulfilled
         (trim ((raw (feed ["RESULT_BEGIN x"; "(lldb) run"]) ++ " {k:")
                ++ "1} ")))
      false.
Proof.
  apply (X5_payload_over_two_chunks
           ["RESULT_BEGIN x"; "(lldb) run"] "log " " {k:" "1} " " bye"
           ["RESULT_BEGIN late RESULT_END"]).
  - repeat constructor.
  - reflexivity.
  - reflexivity.
  - reflexivity.
  - reflexivity.
Defined.

(** X6.  A chunk that holds the begin sentinel and no end sentinel after it
    appends what follows the begin sentinel to the buffer, also when a begin
    sentinel was seen before: a repeated begin sentinel does not reset the
    buffer, and an end sentinel in front of the begin sentinel of the same
    chunk is not acted upon. *)
Theorem X6_begin_chunk_appends (chunks : list string) (a b : string) :
  Forall (fun c => includes c end_ = false) chunks ->
  includes a begin = false ->
  includes b end_ = false ->
  feed (chunks ++ [(a ++ begin ++ b)%string])%list
  = mkState (raw (feed chunks) ++ b) Pending true.
Proof.
  intros Hall Ha Hb.
  destruct (ExtractorInvariants.no_end_listening chunks Hall) as [Hj Hl].
  rewrite ExtractorFacts.feed_app.
  change (run (feed chunks) (map StdoutData [(a ++ begin ++ b)%string]))
    with (if listening (feed chunks)
          then onData (feed chunks) (a ++ begin ++ b)
          else feed chunks).
  rewrite Hl.
  rewrite ExtractorInvariants.onData_begin_only by assumption.
  unfold addRaw. now rewrite Hj, Hl.
Qed.

Lemma X6_witness :
  feed (["x RESULT_BEGIN one"; "noise"]
        ++ [("RESULT_END y " ++ begin ++ " two")%string])%list
  = mkState (raw (feed ["x RESULT_BEGIN one"; "noise"]) ++ " two")
      Pending true.
Proof.
  apply (X6_begin_chunk_appends
           ["x RESULT_BEGIN one"; "noise"] "RESULT_END y " " two").
  - repeat constructor.
  - reflexivity.
  - reflexivity.
Defined.

End ExtractorExtras.

(** * Further properties of the command assembly *)

Module AssemblyMore.

Import Posix.
Local Open Scope Z_scope.

(** The loop of [resolve] ends with an absolute path when the working
    directory, which it visits last, is absolute. *)
Lemma resolveLoop_cwd_absolute (l : list string) (dir acc : string) :
  startsWithSlash dir = true -> snd (resolveLoop (l ++ [dir])%list acc) = true.
Proof.
  intros Hd. revert acc; induction l as [|p l IH]; intros acc.
  - destruct dir as [|c dir]; [discriminate|].
    simpl app. unfold resolveLoop.
    change (Js.len (String c dir) =? 0) with false. cbv iota.
    now rewrite Hd.
  - change ((p :: l) ++ [dir])%list with (p :: (l ++ [dir]))%list.
    cbn [resolveLoop].
    destruct (Js.len p =? 0); [apply IH|].
    destruct (startsWithSlash p); [reflexivity | apply IH].
Qed.

Lemma resolve_is_absolute (dir a b : string) :
  startsWithSlash dir = true -> startsWithSlash (resolve dir a b) = true.
Proof.
  intros Hd. unfold resolve, resolveAll.
  pose proof (resolveLoop_cwd_absolute (rev [a; b]) dir "" Hd) as Hs.
  destruct (resolveLoop (rev [a; b] ++ [dir]) "") as [r abs].
  simpl in Hs. subst abs. reflexivity.
Qed.

(** The arguments of [dockerRunCommand] in terms of [commandMounts]. *)
Lemma dockerRunCommand_mounts {H : Host} (docker : DockerRunConfig)
    (mainFilePath logLevel : string) :
  args (dockerRunCommand docker mainFilePath logLevel)
  = filter Js.truthy
      ([ "run"; "-it"; "--rm"; "--env"; ("LOG_LEVEL=" ++ logLevel)%string ]
       ++ flat_map toDockerMountArgs (commandMounts docker mainFilePath)
       ++ [ imageName (image docker); mainFilePath ])%list.
Proof.
  unfold dockerRunCommand, commandMounts. cbn [args]. f_equal.
  rewrite flat_map_app. cbn [flat_map List.concat].
  rewrite !app_nil_r, <- !List.app_assoc. reflexivity.
Qed.

Lemma supported_own (ext : string) :
  In ext [".c"; ".cpp"; ".php"; ".py"]%string ->
  exists docker, getProperty dockerRunConfigs ext = Own docker.
Proof.
  simpl. intros [E | [E | [E | [E | []]]]]; rewrite <- E; eexists; reflexivity.
Qed.

End AssemblyMore.

Section AssemblyExtras.

Context {H : Host}.

(** X7.  With the empty main-file path, [filter(Boolean)] removes the final
    positional argument and nothing else: the argument list ends with the
    image name, behind the five leading tokens and the [--mount] entries. *)
Theorem X7_empty_path_is_filtered_out
    (docker : DockerRunConfig) (logLevel : string) :
  args (dockerRunCommand docker "" logLevel)
  = ([ "run"; "-it"; "--rm"; "--env"; ("LOG_LEVEL=" ++ logLevel)%string ]
     ++ flat_map (fun m => bindFlag (source m) (target m))
                 (commandMounts docker "")
     ++ [ imageName (image docker) ])%list.
Proof. destruct docker as [[]]; reflexivity. Qed.

(** X8.  [callScript] spawns a process exactly for the four extensions of
    the table: the effects hold a [spawnSync] of [docker] if and only if the
    extension of the main-file path is [.c], [.cpp], [.php] or [.py]. *)
Theorem X8_spawn_iff_supported
    (L : HostLaws H) (mainFilePath : string) (logLevel : option string) :
  (exists a, In (SpawnSync "docker" a "inherit")
               (fst (callScript mainFilePath logLevel)))
  <-> In (extname mainFilePath) [".c"; ".cpp"; ".php"; ".py"].
Proof.
  split.
  - intros [a Ha].
    destruct (in_dec string_dec (extname mainFilePath)
                [".c"; ".cpp"; ".php"; ".py"]) as [Hin | Hn];
      [exact Hin|].
    unfold callScript in Ha.
    rewrite (AssemblyFacts.getProperty_configs_missing _ Hn) in Ha.
    destruct Ha.
  - intros Hin. destruct (AssemblyMore.supported_own _ Hin) as [docker Hd].
    unfold callScript. rewrite Hd. eexists. cbn [fst].
    right. right. right. left. reflexivity.
Qed.

(** X9.  The image is chosen by the extension: for [.c] and [.cpp] the
    spawned argument list ends with [lldb-debugger] and the main-file path,
    for [.php] with [php-debugger] and the path, for [.py] with
    [python-debugger] and the path. *)
Theorem X9_image_by_extension
    (L : HostLaws H) (mainFilePath : string) (logLevel : option string)
    (img : string) :
  In (extname mainFilePath, img)
     [ (".c", "lldb-debugger"); (".cpp", "lldb-debugger");
       (".php", "php-debugger"); (".py", "python-debugger") ] ->
  exists front,
    In (SpawnSync "docker" (front ++ [img; mainFilePath])%list "inherit")
       (fst (callScript mainFilePath logLevel)).
Proof.
  intros Hin.
  assert (Hd : exists docker,
             getProperty dockerRunConfigs (extname mainFilePath) = Own docker
             /\ imageName (image docker) = img).
  { simpl in Hin.
    destruct Hin as [E | [E | [E | [E | []]]]];
      injection E as E1 E2; rewrite <- E1, <- E2; eexists; split;
        reflexivity. }
  destruct Hd as [docker [Hd Himg]].
  assert (Hne : mainFilePath <> "").
  { intros ->. rewrite extname_empty in Hd. discriminate. }
  set (level := match logLevel with Some l => l | None => "off" end).
  exists (filter Js.truthy
            ([ "run"; "-it"; "--rm"; "--env"; ("LOG_LEVEL=" ++ level)%string ]
             ++ flat_map toDockerMountArgs
                  (commandMounts docker mainFilePath))%list).
  unfold callScript. rewrite Hd. fold level. cbn [fst].
  right. right. right. left. f_equal.
  rewrite AssemblyMore.dockerRunCommand_mounts.
  rewrite List.app_assoc, filter_app. f_equal.
  rewrite Himg.
  destruct mainFilePath as [|c rest]; [congruence|].
  rewrite <- Himg. destruct docker as [[]]; reflexivity.
Qed.

End AssemblyExtras.

Lemma X8_witness :
  exists a,
    In (SpawnSync "docker" a "inherit")
       (fst (callScript (H := posixHost "/home/user/debuggers")
               "sources/main.py" (Some "debug"))).
Proof.
  apply (proj2 (X8_spawn_iff_supported
                  (H := posixHost "/home/user/debuggers")
                  (PosixFacts.posixHost_laws "/home/user/debuggers")
                  "sources/main.py" (Some "debug"))).
  vm_compute. tauto.
Defined.

Lemma X9_witness :
  exists front,
    In (SpawnSync "docker" (front ++ ["php-debugger"; "web/index.php"])%list
          "inherit")
       (fst (callScript (H := posixHost "/home/user/debuggers")
               "web/index.php" None)).
Proof.
  apply (X9_image_by_extension
           (H := posixHost "/home/user/debuggers")
           (PosixFacts.posixHost_laws "/home/user/debuggers")
           "web/index.php" None "php-debugger").
  vm_compute. tauto.
Defined.

(** X10.  The serialization of a mount does not escape commas: a mount that
    is not read-only and whose target ends in [,readonly] gives the same
    [--mount] value as the read-only mount of the target without that
    ending, although the two mounts differ. *)
Theorem X10_mount_serialization_not_injective
    (ty : option MountType) (src tgt : string) :
  toDockerMountArgs (mkMount ty src (tgt ++ ",readonly") None)
  = toDockerMountArgs (mkMount ty src tgt (Some true))
  /\ toDockerMountArgs (mkMount ty src (tgt ++ ",readonly") (Some false))
     = toDockerMountArgs (mkMount ty src tgt (Some true))
  /\ mkMount ty src (tgt ++ ",readonly") None
     <> mkMount ty src tgt (Some true).
Proof.
  split; [|split].
  - destruct ty as [[]|]; reflexivity.
  - destruct ty as [[]|]; reflexivity.
  - intros E. discriminate E.
Qed.

(** X11.  On a POSIX host whose working directory is absolute, the source
    and the target of every mount the command serializes are absolute
    paths. *)
Theorem X11_posix_mount_paths_are_absolute
    (dir : string) (docker : DockerRunConfig)
    (mainFilePath logLevel : string) :
  Posix.startsWithSlash dir = true ->
  args (dockerRunCommand (H := posixHost dir) docker mainFilePath logLevel)
  = filter Js.truthy
      ([ "run"; "-it"; "--rm"; "--env"; ("LOG_LEVEL=" ++ logLevel)%string ]
       ++ flat_map toDockerMountArgs
            (commandMounts (H := posixHost dir) docker mainFilePath)
       ++ [ imageName (image docker); mainFilePath ])%list
  /\ Forall (fun m => Posix.startsWithSlash (source m) = true
                      /\ Posix.startsWithSlash (target m) = true)
            (commandMounts (H := posixHost dir) docker mainFilePath).
Proof.
  intros Hd. split; [apply AssemblyMore.dockerRunCommand_mounts|].
  unfold commandMounts, projectMount, mount.
  apply Forall_app. split.
  - destruct docker as [[]]; cbn [image mountsPerImage];
      repeat constructor; cbn [source target];
      apply AssemblyMore.resolve_is_absolute; exact Hd.
  - repeat constructor; cbn [source target];
      apply AssemblyMore.resolve_is_absolute; exact Hd.
Qed.

Lemma X11_witness :
  Forall (fun m => Posix.startsWithSlash (source m) = true
                   /\ Posix.startsWithSlash (target m) = true)
         (commandMounts (H := posixHost "/home/user/debuggers")
            (mkConfig lldb_debugger) "../other/main.c").
Proof.
  apply (proj2 (X11_posix_mount_paths_are_absolute
                  "/home/user/debuggers" (mkConfig lldb_debugger)
                  "../other/main.c" "off" eq_refl)).
Defined.

(** X12.  On a POSIX host the sandbox side of the command does not depend
    on the working directory of the host: the targets of all mounts are the
    same for any two working directories. *)
Theorem X12_posix_targets_ignore_cwd
    (dir dir' : string) (docker : DockerRunConfig) (mainFilePath : string) :
  map target (commandMounts (H := posixHost dir) docker mainFilePath)
  = map target (commandMounts (H := posixHost dir') docker mainFilePath).
Proof.
  unfold commandMounts, projectMount, mount.
  rewrite !map_app.
  assert (Himage : map target (mountsPerImage (H := posixHost dir)
                                 (image docker))
                   = map target (mountsPerImage (H := posixHost dir')
                                   (image docker)))
    by (destruct docker as [[]]; reflexivity).
  rewrite Himage. f_equal.
Qed.

Section ExtractorFilter.

Import Js Extractor.

(** X13.  Chunks that hold neither sentinel never matter: removing them
    from a chunk sequence leaves the final state of the extractor (buffer,
    promise and listener) unchanged. *)
Theorem X13_chunks_without_sentinel_never_matter (chunks : list string) :
  feed (filter (fun c => includes c begin || includes c end_) chunks)
  = feed chunks.
Proof.
  unfold feed. generalize initial as st.
  induction chunks as [|c chunks IH]; intros st; [reflexivity|].
  cbn [filter].
  destruct (includes c begin) eqn:Hb; [|destruct (includes c end_) eqn:He];
    cbn [orb map].
  - change (run st (StdoutData c :: ?l)) with (run (dispatch st (StdoutData c)) l).
    apply IH.
  - change (run st (StdoutData c :: ?l)) with (run (dispatch st (StdoutData c)) l).
    apply IH.
  - change (run st (StdoutData c :: map StdoutData chunks))
      with (run (dispatch st (StdoutData c)) (map StdoutData chunks)).
    rewrite (ExtractorFacts.dispatch_neither st c Hb He). apply IH.
Qed.

End ExtractorFilter.
